(** * Weather & News API server (src/server.js): shallow embedding

    The Express handlers of [src/server.js] are modelled as functions in a
    small state-and-exception monad.  The state is the list of outbound
    upstream requests issued so far (the calls to [axios.get]); exceptions
    are the JavaScript exceptions the handlers can raise: an [AxiosError]
    from a failed upstream call, or a [TypeError] from reading a property of
    [undefined] / [null].

    Upstream payloads and response bodies are JavaScript values.  Numbers are
    modelled as exact rationals [Q] (plus [NaN]); the payloads the claims are
    about are decimal literals, which [Q] represents exactly. *)

From Stdlib Require Import QArith Qround Qabs ZArith String List Bool Lia Lqa.
Import ListNotations.
Open Scope string_scope.
Set Warnings "-register-all".

(** ** JavaScript values *)

Inductive value : Type :=
| VUndef
| VNull
| VBool (b : bool)
| VNum (q : Q)
| VNaN
| VStr (s : string)
| VArr (items : list value)
| VObj (fields : list (string * value)).

(** Property lookup in a plain object (keys of a parsed JSON object are
    unique); a missing key reads as [undefined]. *)
Fixpoint assoc (fs : list (string * value)) (k : string) : value :=
  match fs with
  | [] => VUndef
  | (k', v) :: fs' => if String.eqb k k' then v else assoc fs' k
  end.

(** ** Exceptions and the outcome of a computation that may throw *)

Inductive exn : Type :=
| TypeError (msg : string)
  (** [AxiosError]: [response_status] is [error.response?.status]
      ([None] for a network failure with no response). *)
| AxiosError (response_status : option Z) (msg : string).

(** [error.response?.status] *)
Definition response_status (e : exn) : option Z :=
  match e with
  | TypeError _ => None
  | AxiosError s _ => s
  end.

(** [error.message] *)
Definition exn_message (e : exn) : string :=
  match e with
  | TypeError m => m
  | AxiosError _ m => m
  end.

Inductive outcome (A : Type) : Type :=
| Ok (a : A)
| Throw (e : exn).
Arguments Ok {A} a.
Arguments Throw {A} e.

Definition obind {A B} (m : outcome A) (k : A -> outcome B) : outcome B :=
  match m with
  | Ok a => k a
  | Throw e => Throw e
  end.

Notation "'let?' x ':=' m 'in' k" := (obind m (fun x => k))
  (at level 200, x name, m at level 100, k at level 200).

(** ** Property access *)

(** [v.k]: reading a property of [undefined] or [null] throws a
    [TypeError]; reading an absent property, or a property of a primitive
    other than a string's own ones (not used by the handlers), gives
    [undefined]. *)
Definition get (v : value) (k : string) : outcome value :=
  match v with
  | VUndef => Throw (TypeError ("Cannot read properties of undefined (reading '" ++ k ++ "')"))
  | VNull => Throw (TypeError ("Cannot read properties of null (reading '" ++ k ++ "')"))
  | VObj fs => Ok (assoc fs k)
  | _ => Ok VUndef
  end.

(** [v?.k]: optional chaining short-circuits to [undefined] on a nullish
    base. *)
Definition opt_get (v : value) (k : string) : outcome value :=
  match v with
  | VUndef | VNull => Ok VUndef
  | _ => get v k
  end.

(** [v[0]] *)
Definition get_first (v : value) : outcome value :=
  match v with
  | VUndef => Throw (TypeError "Cannot read properties of undefined (reading '0')")
  | VNull => Throw (TypeError "Cannot read properties of null (reading '0')")
  | VArr (x :: _) => Ok x
  | VArr [] => Ok VUndef
  | VObj fs => Ok (assoc fs "0")
  | VStr (String c _) => Ok (VStr (String c EmptyString))
  | _ => Ok VUndef
  end.

(** ** Truthiness, [||] and [Math.round] *)

Definition truthy (v : value) : bool :=
  match v with
  | VUndef | VNull | VNaN => false
  | VBool b => b
  | VNum q => negb (Qeq_bool q 0)
  | VStr s => negb (String.eqb s "")
  | VArr _ | VObj _ => true
  end.

(** [a || b] *)
Definition js_or (a b : value) : value := if truthy a then a else b.

(** [ToNumber] on the values [Math.round] receives.  Numeric strings and
    one-element arrays are not converted (they read as [NaN] here); the
    handlers only round numeric upstream fields. *)
Definition to_number (v : value) : option Q :=
  match v with
  | VNum q => Some q
  | VNull => Some 0%Q
  | VBool true => Some 1%Q
  | VBool false => Some 0%Q
  | _ => None
  end.

(** [Math.round x] is the integer closest to [x], ties towards +infinity,
    i.e. [floor (x + 1/2)]. *)
Definition round_q (q : Q) : Z := Qfloor (q + (1 # 2)).

Definition math_round (v : value) : value :=
  match to_number v with
  | Some q => VNum (inject_Z (round_q q))
  | None => VNaN
  end.

(** ** Response shaping *)

(** The object literal [processedData] of [GET /api/weather]
    (server.js, lines 49-64), evaluated property by property. *)
Definition process_weather (weatherData : value) : outcome value :=
  let? main := get weatherData "main" in
  let? temp := get main "temp" in
  let temperature := math_round temp in
  let? weather := get weatherData "weather" in
  let? weather0 := get_first weather in
  let? description := get weather0 "description" in
  let? coord := get weatherData "coord" in
  let? lat := get coord "lat" in
  let? lon := get coord "lon" in
  let? main := get weatherData "main" in
  let? feels_like := get main "feels_like" in
  let feelsLike := math_round feels_like in
  let? wind := get weatherData "wind" in
  let? speed := opt_get wind "speed" in
  let windSpeed := js_or speed (VNum 0) in
  let? sys := get weatherData "sys" in
  let? countryCode := get sys "country" in
  let? rain := get weatherData "rain" in
  let? rain3h := opt_get rain "3h" in
  let rainVolume := js_or rain3h (VNum 0) in
  let? city := get weatherData "name" in
  let? main := get weatherData "main" in
  let? humidity := get main "humidity" in
  let? main := get weatherData "main" in
  let? pressure := get main "pressure" in
  let? weather := get weatherData "weather" in
  let? weather0 := get_first weather in
  let? icon := get weather0 "icon" in
  Ok (VObj [("temperature", temperature);
            ("description", description);
            ("coordinates", VObj [("lat", lat); ("lon", lon)]);
            ("feelsLike", feelsLike);
            ("windSpeed", windSpeed);
            ("countryCode", countryCode);
            ("rainVolume", rainVolume);
            ("city", city);
            ("humidity", humidity);
            ("pressure", pressure);
            ("icon", icon)]).

(** The object literal [processedWeather] of [GET /api/data]
    (server.js, lines 177-192), transcribed separately from the inlined
    copy in [GET /api/weather]. *)
Definition process_weather_combined (weatherData : value) : outcome value :=
  let? main := get weatherData "main" in
  let? temp := get main "temp" in
  let temperature := math_round temp in
  let? weather := get weatherData "weather" in
  let? weather0 := get_first weather in
  let? description := get weather0 "description" in
  let? coord := get weatherData "coord" in
  let? lat := get coord "lat" in
  let? lon := get coord "lon" in
  let? main := get weatherData "main" in
  let? feels_like := get main "feels_like" in
  let feelsLike := math_round feels_like in
  let? wind := get weatherData "wind" in
  let? speed := opt_get wind "speed" in
  let windSpeed := js_or speed (VNum 0) in
  let? sys := get weatherData "sys" in
  let? countryCode := get sys "country" in
  let? rain := get weatherData "rain" in
  let? rain3h := opt_get rain "3h" in
  let rainVolume := js_or rain3h (VNum 0) in
  let? city := get weatherData "name" in
  let? main := get weatherData "main" in
  let? humidity := get main "humidity" in
  let? main := get weatherData "main" in
  let? pressure := get main "pressure" in
  let? weather := get weatherData "weather" in
  let? weather0 := get_first weather in
  let? icon := get weather0 "icon" in
  Ok (VObj [("temperature", temperature);
            ("description", description);
            ("coordinates", VObj [("lat", lat); ("lon", lon)]);
            ("feelsLike", feelsLike);
            ("windSpeed", windSpeed);
            ("countryCode", countryCode);
            ("rainVolume", rainVolume);
            ("city", city);
            ("humidity", humidity);
            ("pressure", pressure);
            ("icon", icon)]).

(** The arrow passed to [articles.map] (server.js, lines 120-127; the same
    arrow at lines 202-209). *)
Definition map_article (article : value) : outcome value :=
  let? title := get article "title" in
  let? description := get article "description" in
  let? url := get article "url" in
  let? publishedAt := get article "publishedAt" in
  let? source := get article "source" in
  let? source_name := get source "name" in
  let? urlToImage := get article "urlToImage" in
  Ok (VObj [("title", title);
            ("description", description);
            ("url", url);
            ("publishedAt", publishedAt);
            ("source", source_name);
            ("imageUrl", urlToImage)]).

(** [Array.prototype.map] with a callback that may throw: the first
    exception aborts the whole map. *)
Fixpoint map_list (f : value -> outcome value) (l : list value)
  : outcome (list value) :=
  match l with
  | [] => Ok []
  | x :: l' =>
      let? y := f x in
      let? ys := map_list f l' in
      Ok (y :: ys)
  end.

(** [v.map(f)]: only an array has a [map] method. *)
Definition js_map (f : value -> outcome value) (v : value) : outcome value :=
  match v with
  | VUndef => Throw (TypeError "Cannot read properties of undefined (reading 'map')")
  | VNull => Throw (TypeError "Cannot read properties of null (reading 'map')")
  | VArr l => let? l' := map_list f l in Ok (VArr l')
  | _ => Throw (TypeError "articles.map is not a function")
  end.

(** The object literal [processedNews] of [GET /api/news]
    (server.js, lines 118-128); [newsData] of [GET /api/data]
    (lines 200-210) is the same expression on [newsResponse.data]. *)
Definition process_news (newsData : value) : outcome value :=
  let? totalResults := get newsData "totalResults" in
  let? articles := get newsData "articles" in
  let? articles' := js_map map_article articles in
  Ok (VObj [("totalResults", totalResults); ("articles", articles')]).

(** ** Outbound calls, responses and the handler monad *)

(** An outbound [axios.get]: the weather query URL (line 42 / line 172) and
    the news query URL (line 111 / line 197), identified by the
    [encodeURIComponent] argument they are built from. *)
Inductive request : Type :=
| WeatherReq (city : string)
| NewsReq (query : string).

(** What the upstream provider does with a request: answer with a payload
    ([response.data]) or make [axios.get] reject ([error.response?.status]
    and [error.message]). *)
Inductive fetch_result : Type :=
| Resp (data : value)
| Fail (status : option Z) (msg : string).

(** What the handler passes to [res.status(..).json(..)]; [res.json]
    alone answers with status 200.  The body is the JavaScript object given
    to [res.json]. *)
Record response : Type := mk_response { status : Z; body : value }.

(** State: the outbound requests issued so far, in order. *)
Definition M (A : Type) : Type := list request -> outcome A * list request.

Definition ret {A} (a : A) : M A := fun log => (Ok a, log).

Definition bind {A B} (m : M A) (k : A -> M B) : M B :=
  fun log =>
    match m log with
    | (Ok a, log') => k a log'
    | (Throw e, log') => (Throw e, log')
    end.

Notation "x <- m ;; k" := (bind m (fun x => k))
  (at level 61, m at next level, right associativity).

Definition lift {A} (o : outcome A) : M A := fun log => (o, log).

(** [try { m } catch (e) { h e }] *)
Definition try_catch {A} (m : M A) (h : exn -> M A) : M A :=
  fun log =>
    match m log with
    | (Ok a, log') => (Ok a, log')
    | (Throw e, log') => h e log'
    end.

(** [error.response?.status === n] *)
Definition status_is (e : exn) (n : Z) : bool :=
  match response_status e with
  | Some s => Z.eqb s n
  | None => false
  end.

(** An error body [{ error, message }]. *)
Definition error_body (error message : string) : value :=
  VObj [("error", VStr error); ("message", VStr message)].

(** A missing-parameter body [{ error, example }]. *)
Definition example_body (error example : string) : value :=
  VObj [("error", VStr error); ("example", VStr example)].

(** [req.query]: Express gives each query parameter as a string, or
    [undefined] when it is absent. *)
Record query : Type := mk_query { q_city : option string; q_country : option string }.

Definition param (p : option string) : value :=
  match p with
  | Some s => VStr s
  | None => VUndef
  end.

(** [String(v)], as [encodeURIComponent] converts its argument. *)
Definition to_js_string (v : value) : string :=
  match v with
  | VStr s => s
  | VUndef => "undefined"
  | VNull => "null"
  | _ => ""
  end.

Section Handlers.

(** The upstream providers' behaviour, one answer per outbound request. *)
Variable upstream : request -> fetch_result.

(** [await axios.get(url)], recording the call. *)
Definition axios_get (r : request) : M value :=
  fun log =>
    (match upstream r with
     | Resp d => Ok d
     | Fail s m => Throw (AxiosError s m)
     end, (log ++ [r])%list).

(** [app.get('/api/weather', ...)] (server.js, lines 30-89). *)
Definition weather_handler (q : query) : M response :=
  try_catch
    (let city := param (q_city q) in
     if negb (truthy city) then
       ret (mk_response 400 (example_body "City parameter is required"
                                          "/api/weather?city=London"))
     else
       weatherData <- axios_get (WeatherReq (to_js_string city)) ;;
       processedData <- lift (process_weather weatherData) ;;
       ret (mk_response 200 processedData))
    (fun error =>
       if status_is error 404 then
         ret (mk_response 404 (error_body "City not found"
                                          "Please check the city name and try again"))
       else if status_is error 401 then
         ret (mk_response 401 (error_body "Invalid API key"
                                          "Please check your OpenWeather API key"))
       else
         ret (mk_response 500 (error_body "Failed to fetch weather data"
                                          (exn_message error)))).

(** [const query = city || country] (server.js, line 108). *)
Definition news_query (q : query) : string :=
  to_js_string (js_or (param (q_city q)) (param (q_country q))).

(** [app.get('/api/news', ...)] (server.js, lines 96-153). *)
Definition news_handler (q : query) : M response :=
  try_catch
    (let city := param (q_city q) in
     let country := param (q_country q) in
     if negb (truthy city) && negb (truthy country) then
       ret (mk_response 400 (example_body "City or country parameter is required"
                                          "/api/news?city=London or /api/news?country=GB"))
     else
       newsData <- axios_get (NewsReq (news_query q)) ;;
       processedNews <- lift (process_news newsData) ;;
       ret (mk_response 200 processedNews))
    (fun error =>
       if status_is error 401 then
         ret (mk_response 401 (error_body "Invalid API key"
                                          "Please check your News API key"))
       else if status_is error 429 then
         ret (mk_response 429 (error_body "API rate limit exceeded"
                                          "Please try again later"))
       else
         ret (mk_response 500 (error_body "Failed to fetch news data"
                                          (exn_message error)))).

(** The placeholder [newsData] of the inner [catch] (server.js,
    lines 214-218). *)
Definition news_unavailable : value :=
  VObj [("totalResults", VNum 0); ("articles", VArr []);
        ("error", VStr "News data unavailable")].

(** [app.get('/api/data', ...)] (server.js, lines 160-240). *)
Definition data_handler (q : query) : M response :=
  try_catch
    (let city := param (q_city q) in
     if negb (truthy city) then
       ret (mk_response 400 (example_body "City parameter is required"
                                          "/api/data?city=London"))
     else
       weatherData <- axios_get (WeatherReq (to_js_string city)) ;;
       processedWeather <- lift (process_weather_combined weatherData) ;;
       newsData <- try_catch
                     (newsResponse <- axios_get (NewsReq (to_js_string city)) ;;
                      lift (process_news newsResponse))
                     (fun _ => ret news_unavailable) ;;
       ret (mk_response 200 (VObj [("weather", processedWeather);
                                   ("news", newsData)])))
    (fun error =>
       if status_is error 404 then
         ret (mk_response 404 (error_body "City not found"
                                          "Please check the city name and try again"))
       else
         ret (mk_response 500 (error_body "Failed to fetch data"
                                          (exn_message error)))).

End Handlers.

(** ** Browser client: [createNewsCard] (src/public/script.js, lines 101-129)

    The card's image, source, title and description, as interpolated into
    the card's HTML. *)

Inductive card_image : Type :=
| ImgTag (src : value)
| NoImg.

Definition card_img (article : value) : outcome card_image :=
  let? imageUrl := get article "imageUrl" in
  Ok (if truthy imageUrl then ImgTag imageUrl else NoImg).

Definition card_source (article : value) : outcome value :=
  let? source := get article "source" in
  Ok (js_or source (VStr "Unknown Source")).

Definition card_title (article : value) : outcome value :=
  let? title := get article "title" in
  Ok (js_or title (VStr "No title available")).

Definition card_description (article : value) : outcome value :=
  let? description := get article "description" in
  Ok (js_or description (VStr "No description available")).

(** Test-input helper: the object [v] without the properties [ks]. *)
Definition drop_fields (ks : list string) (v : value) : value :=
  match v with
  | VObj fs => VObj (filter (fun kv => negb (existsb (String.eqb (fst kv)) ks)) fs)
  | _ => v
  end.

(** ** Browser client: [fetchWeatherData] and the page it updates
    (src/public/script.js, lines 11-176)

    The page is the part of the DOM the script writes: the error banner,
    the [display] of the loading indicator and of the two sections, the
    [textContent] writes of [displayWeatherData], the weather icon, the
    children of [#newsArticles], and the [/api/data] requests sent. *)

(** [String.prototype.trim] strips the code points of WhiteSpace and
    LineTerminator: U+0009-U+000D, U+0020, U+00A0, U+1680, U+2000-U+200A,
    U+2028, U+2029, U+202F, U+205F, U+3000 and U+FEFF.  Strings of the
    model are UTF-8 byte strings (as the literal "°C" above), so each of
    these code points is its UTF-8 byte sequence. *)
Definition ws_codes : list (list Ascii.ascii) :=
  map (map Ascii.ascii_of_nat)
    (app [[9]; [10]; [11]; [12]; [13]; [32]; [194; 160]; [225; 154; 128]]
      (app (map (fun n => [226; 128; n]) (seq 128 11))
           [[226; 128; 168]; [226; 128; 169]; [226; 128; 175]; [226; 129; 159];
            [227; 128; 128]; [239; 187; 191]]))%nat.

Fixpoint prefixb (p l : list Ascii.ascii) : bool :=
  match p, l with
  | [], _ => true
  | c :: p', d :: l' => Ascii.eqb c d && prefixb p' l'
  | _ :: _, [] => false
  end.

(** The length of the white-space code point [l] starts with, or 0; [codes]
    is [ws_codes], or its byte-reversed copy to read [l] from its end. *)
Definition ws_len (codes : list (list Ascii.ascii)) (l : list Ascii.ascii) : nat :=
  match find (fun c => prefixb c l) codes with
  | Some c => length c
  | None => 0
  end.

(** Drop the white space at the head of [l] ([fuel] bounds the number of
    code points dropped; [length l] is enough). *)
Fixpoint drop_ws (codes : list (list Ascii.ascii)) (fuel : nat) (l : list Ascii.ascii)
  : list Ascii.ascii :=
  match fuel with
  | O => l
  | S fuel' =>
      match ws_len codes l with
      | O => l
      | n => drop_ws codes fuel' (skipn n l)
      end
  end.

Definition js_trim (s : string) : string :=
  let l := drop_ws ws_codes (length (list_ascii_of_string s)) (list_ascii_of_string s) in
  string_of_list_ascii
    (rev (drop_ws (map (@rev _) ws_codes) (length l) (rev l))).

(** The body the browser reads back with [response.json()]: the server's
    [res.json] serialises it with [JSON.stringify], which drops
    [undefined] properties, writes [undefined] array items and [NaN] as
    [null]. *)
Fixpoint json_rt (v : value) : value :=
  match v with
  | VNaN => VNull
  | VArr l => VArr (map (fun x => match x with VUndef => VNull | _ => json_rt x end) l)
  | VObj fs =>
      VObj (flat_map (fun '(k, x) => match x with
                                     | VUndef => []
                                     | _ => [(k, json_rt x)]
                                     end) fs)
  | _ => v
  end.

(** Text written to the page: literals, interpolated values ([String(v)]
    is left symbolic), [q.toFixed(2)], and concatenation. *)
Inductive text : Type :=
| TLit (s : string)
| TVal (v : value)
| TFixed2 (q : Q)
| TCat (a b : text).

(** A card built by [createNewsCard]: image, publication date (the
    argument of [new Date(..)]), source, title, description, link. *)
Record card : Type := mk_card {
  card_image_of : card_image;
  card_date : value;
  card_source_of : value;
  card_title_of : value;
  card_description_of : value;
  card_link : value }.

(** A child of [#newsArticles]. *)
Inductive news_node : Type :=
| NoNewsDiv
| NewsCard (c : card).

Record page : Type := mk_page {
  error_text : string;               (* #errorMessage textContent *)
  error_shown : bool;                (* #errorMessage has class 'show' *)
  loading_display : string;          (* #loadingIndicator style.display *)
  weather_display : string;          (* #weatherSection style.display *)
  news_display : string;             (* #newsSection style.display *)
  texts : list (string * text);      (* textContent writes, latest first *)
  icon : option (text * value);      (* #weatherIcon src and alt *)
  news_nodes : list news_node;       (* children of #newsArticles *)
  sent : list string                 (* city of each /api/data fetch, latest first *)
}.

Definition set_error (t : string) (b : bool) (p : page) : page :=
  mk_page t b (loading_display p) (weather_display p) (news_display p)
          (texts p) (icon p) (news_nodes p) (sent p).
Definition set_loading (d : string) (p : page) : page :=
  mk_page (error_text p) (error_shown p) d (weather_display p) (news_display p)
          (texts p) (icon p) (news_nodes p) (sent p).
Definition set_weather_display (d : string) (p : page) : page :=
  mk_page (error_text p) (error_shown p) (loading_display p) d (news_display p)
          (texts p) (icon p) (news_nodes p) (sent p).
Definition set_news_display (d : string) (p : page) : page :=
  mk_page (error_text p) (error_shown p) (loading_display p) (weather_display p) d
          (texts p) (icon p) (news_nodes p) (sent p).
Definition set_texts (ts : list (string * text)) (p : page) : page :=
  mk_page (error_text p) (error_shown p) (loading_display p) (weather_display p)
          (news_display p) ts (icon p) (news_nodes p) (sent p).
Definition set_icon (i : option (text * value)) (p : page) : page :=
  mk_page (error_text p) (error_shown p) (loading_display p) (weather_display p)
          (news_display p) (texts p) i (news_nodes p) (sent p).
Definition set_news_nodes (ns : list news_node) (p : page) : page :=
  mk_page (error_text p) (error_shown p) (loading_display p) (weather_display p)
          (news_display p) (texts p) (icon p) ns (sent p).
Definition set_sent (s : list string) (p : page) : page :=
  mk_page (error_text p) (error_shown p) (loading_display p) (weather_display p)
          (news_display p) (texts p) (icon p) (news_nodes p) s.

(** The client's monad: page state, and a thrown exception carrying its
    [message]. *)
Inductive cresult (A : Type) : Type :=
| COk (a : A)
| CThrow (msg : string).
Arguments COk {A} a.
Arguments CThrow {A} msg.

Definition CM (A : Type) : Type := page -> cresult A * page.

Definition cret {A} (a : A) : CM A := fun p => (COk a, p).

Definition cbind {A B} (m : CM A) (k : A -> CM B) : CM B :=
  fun p =>
    match m p with
    | (COk a, p') => k a p'
    | (CThrow e, p') => (CThrow e, p')
    end.

Notation "x <~ m ;; k" := (cbind m (fun x => k))
  (at level 61, m at next level, right associativity).

Definition clift {A} (o : outcome A) : CM A :=
  fun p => (match o with Ok a => COk a | Throw e => CThrow (exn_message e) end, p).

Definition cthrow {A} (msg : string) : CM A := fun p => (CThrow msg, p).

Definition modify (f : page -> page) : CM unit := fun p => (COk tt, f p).

(** [try { m } catch (error) { h error.message }] *)
Definition ctry {A} (m : CM A) (h : string -> CM A) : CM A :=
  fun p =>
    match m p with
    | (COk a, p') => (COk a, p')
    | (CThrow e, p') => h e p'
    end.

(** Lines 143-176. *)
Definition showLoading : CM unit := modify (set_loading "block").
Definition hideLoading : CM unit := modify (set_loading "none").
Definition showWeatherSection : CM unit := modify (set_weather_display "block").
Definition hideWeatherSection : CM unit := modify (set_weather_display "none").
Definition showNewsSection : CM unit := modify (set_news_display "block").
Definition hideNewsSection : CM unit := modify (set_news_display "none").
Definition showErrorMessage (message : string) : CM unit :=
  modify (fun p => set_error message true p).
Definition hideErrorMessage : CM unit :=
  modify (fun p => set_error (error_text p) false p).

Definition set_text (id : string) (t : text) : CM unit :=
  modify (fun p => set_texts ((id, t) :: texts p) p).

(** [v.toFixed(2)] *)
Definition to_fixed2 (v : value) : outcome text :=
  match v with
  | VNum q => Ok (TFixed2 q)
  | VNaN => Ok (TLit "NaN")
  | VUndef => Throw (TypeError "Cannot read properties of undefined (reading 'toFixed')")
  | VNull => Throw (TypeError "Cannot read properties of null (reading 'toFixed')")
  | _ => Throw (TypeError "toFixed is not a function")
  end.

(** [v > 0] on the values the client compares ([undefined] and other
    non-numbers compare false; [null] and booleans convert). *)
Definition gt0 (v : value) : bool :=
  match to_number v with
  | Some q => negb (Qle_bool q 0)
  | None => false
  end.

(** [displayWeatherData] (lines 58-81). *)
Definition displayWeatherData (weather : value) : CM unit :=
  city <~ clift (get weather "city") ;;
  _ <~ set_text "cityName" (TVal city) ;;
  countryCode <~ clift (get weather "countryCode") ;;
  _ <~ set_text "countryCode" (TVal countryCode) ;;
  temperature <~ clift (get weather "temperature") ;;
  _ <~ set_text "temperature" (TCat (TVal temperature) (TLit "°C")) ;;
  description <~ clift (get weather "description") ;;
  _ <~ set_text "description" (TVal description) ;;
  feelsLike <~ clift (get weather "feelsLike") ;;
  _ <~ set_text "feelsLike" (TCat (TVal feelsLike) (TLit "°C")) ;;
  windSpeed <~ clift (get weather "windSpeed") ;;
  _ <~ set_text "windSpeed" (TCat (TVal windSpeed) (TLit " m/s")) ;;
  humidity <~ clift (get weather "humidity") ;;
  _ <~ set_text "humidity" (TCat (TVal humidity) (TLit "%")) ;;
  pressure <~ clift (get weather "pressure") ;;
  _ <~ set_text "pressure" (TCat (TVal pressure) (TLit " hPa")) ;;
  rainVolume <~ clift (get weather "rainVolume") ;;
  _ <~ (if gt0 rainVolume
        then rainVolume' <~ clift (get weather "rainVolume") ;;
             set_text "rainVolume" (TCat (TVal rainVolume') (TLit " mm"))
        else set_text "rainVolume" (TLit "No rain")) ;;
  coordinates <~ clift (get weather "coordinates") ;;
  lat <~ clift (get coordinates "lat") ;;
  lat2 <~ clift (to_fixed2 lat) ;;
  coordinates' <~ clift (get weather "coordinates") ;;
  lon <~ clift (get coordinates' "lon") ;;
  lon2 <~ clift (to_fixed2 lon) ;;
  _ <~ set_text "coordinates" (TCat lat2 (TCat (TLit ", ") lon2)) ;;
  icon <~ clift (get weather "icon") ;;
  _ <~ (if truthy icon
        then icon' <~ clift (get weather "icon") ;;
             description' <~ clift (get weather "description") ;;
             modify (set_icon (Some (TCat (TLit "https://openweathermap.org/img/wn/")
                                         (TCat (TVal icon') (TLit "@2x.png")),
                                    description')))
        else cret tt) ;;
  showWeatherSection.

(** [createNewsCard] (lines 101-129). *)
Definition createNewsCard (article : value) : outcome card :=
  let? image := card_img article in
  let? publishedAt := get article "publishedAt" in
  let? source := card_source article in
  let? title := card_title article in
  let? description := card_description article in
  let? url := get article "url" in
  Ok (mk_card image publishedAt source title description url).

(** The [forEach] loop of [displayNewsData]. *)
Fixpoint append_cards (articles : list value) : CM unit :=
  match articles with
  | [] => cret tt
  | article :: rest =>
      newsCard <~ clift (createNewsCard article) ;;
      _ <~ modify (fun p => set_news_nodes (news_nodes p ++ [NewsCard newsCard]) p) ;;
      append_cards rest
  end.

(** [displayNewsData] (lines 86-96); it is only called on a value whose
    [length] is positive, so a non-array has no [forEach] method. *)
Definition displayNewsData (articles : value) : CM unit :=
  _ <~ modify (set_news_nodes []) ;;
  _ <~ (match articles with
        | VArr l => append_cards l
        | _ => cthrow "articles.forEach is not a function"
        end) ;;
  showNewsSection.

(** [displayNoNews] (lines 134-138). *)
Definition displayNoNews : CM unit :=
  _ <~ modify (set_news_nodes [NoNewsDiv]) ;;
  showNewsSection.

(** [v.length] *)
Definition get_length (v : value) : outcome value :=
  match v with
  | VArr l => Ok (VNum (inject_Z (Z.of_nat (length l))))
  | VStr s => Ok (VNum (inject_Z (Z.of_nat (String.length s))))
  | _ => get v "length"
  end.

(** [response.ok] *)
Definition response_ok (s : Z) : bool := Z.leb 200 s && Z.ltb s 300.

(** What [GET /api/data?city=..] answers: [data_handler] always answers
    with a response (its [catch] never rethrows); the [Throw] branch is
    unreachable and given a bodyless 500. *)
Definition serve_data (upstream : request -> fetch_result) (city : string) : response :=
  match fst (data_handler upstream (mk_query (Some city) None) []) with
  | Ok r => r
  | Throw _ => mk_response 500 VUndef
  end.

(** Lines 32-34: [if (!response.ok) throw new Error(data.error ||
    data.message || 'Failed to fetch data')]. *)
Definition throwIfNotOk (response : response) (data : value) : CM unit :=
  if response_ok (status response) then cret tt
  else error <~ clift (get data "error") ;;
       message <~ (if truthy error then cret error
                   else m <~ clift (get data "message") ;;
                        cret (js_or m (VStr "Failed to fetch data"))) ;;
       cthrow (to_js_string message).

(** Lines 39-46: the weather, then the articles or the no-news message. *)
Definition renderData (data : value) : CM unit :=
  weather <~ clift (get data "weather") ;;
  _ <~ displayWeatherData weather ;;
  news <~ clift (get data "news") ;;
  has_news <~ (if truthy news
               then articles <~ clift (get news "articles") ;;
                    if truthy articles
                    then len <~ clift (get_length articles) ;; cret (gt0 len)
                    else cret false
               else cret false) ;;
  if has_news
  then news' <~ clift (get data "news") ;;
       articles <~ clift (get news' "articles") ;;
       displayNewsData articles
  else displayNoNews.

(** [fetchWeatherData] (lines 11-53), with the input field's value
    [input]; the server answers the fetch with [serve_data].
    [encodeURIComponent] and Express's decoding of [req.query.city]
    cancel out. *)
Definition fetchWeatherData (upstream : request -> fetch_result) (input : string) : CM unit :=
  let city := js_trim input in
  _ <~ hideErrorMessage ;;
  _ <~ hideWeatherSection ;;
  _ <~ hideNewsSection ;;
  if String.eqb city "" then showErrorMessage "Please enter a city name"
  else
    _ <~ showLoading ;;
    ctry
      (_ <~ modify (fun p => set_sent (city :: sent p) p) ;;
       let response := serve_data upstream city in
       let data := json_rt (body response) in
       _ <~ throwIfNotOk response data ;;
       _ <~ hideLoading ;;
       renderData data)
      (fun message =>
         _ <~ hideLoading ;;
         showErrorMessage (if String.eqb message "" then "Failed to fetch data. Please try again."
                           else message)).

(** ** Proof tools *)

(** Peel a chain of [let?] in a hypothesis [obind .. = Ok _], naming the
    intermediate results. *)
Ltac peel_ok H :=
  repeat match type of H with
  | obind ?m _ = Ok _ =>
      let E := fresh "E" in
      destruct m eqn:E; cbn [obind] in H; [| discriminate H]
  end.

(** Replay, in the goal, the results recorded by [peel_ok]. *)
Ltac replay_ok :=
  repeat (cbn [obind];
          match goal with
          | H : ?x = Ok _ |- context [?x] => rewrite H
          end).

(** Identify the results of two equal computations. *)
Ltac merge_ok :=
  repeat match goal with
  | H : Ok _ = Ok _ |- _ => injection H as H; subst
  | H1 : ?x = Ok ?a, H2 : ?x = Ok ?b |- _ =>
      rewrite H1 in H2; injection H2 as H2; subst
  end.

Lemma nonempty_truthy (c : string) :
  c <> "" -> truthy (param (Some c)) = true.
Proof.
  intros Hc. cbn. apply String.eqb_neq in Hc. now rewrite Hc.
Qed.

Lemma process_weather_combined_same (wd : value) :
  process_weather_combined wd = process_weather wd.
Proof. reflexivity. Qed.

(** A concrete upstream: the weather provider rejects every query with 401,
    the news provider answers [null]. *)
Definition upstream_weather_401 (r : request) : fetch_result :=
  match r with
  | WeatherReq _ => Fail (Some 401%Z) "Request failed with status code 401"
  | NewsReq _ => Resp VNull
  end.

Section Rounding.
Local Open Scope Q_scope.

Lemma round_q_bounds (q : Q) :
  inject_Z (round_q q) <= q + (1 # 2) /\ q + (1 # 2) < inject_Z (round_q q) + 1.
Proof.
  unfold round_q. split.
  - apply Qfloor_le.
  - pose proof (Qlt_floor (q + (1 # 2))) as H.
    rewrite inject_Z_plus in H. exact H.
Qed.

(** [Math.round] picks an integer at least as close as any other. *)
Lemma round_q_nearest (q : Q) (z : Z) :
  Qabs (q - inject_Z (round_q q)) <= Qabs (q - inject_Z z).
Proof.
  destruct (round_q_bounds q) as [H1 H2].
  assert (Hr : Qabs (q - inject_Z (round_q q)) <= 1 # 2).
  { apply Qabs_Qle_condition. split; lra. }
  destruct (Z.lt_total z (round_q q)) as [Hz | [Hz | Hz]].
  - assert (Hz' : (z + 1 <= round_q q)%Z) by lia.
    rewrite Zle_Qle, inject_Z_plus in Hz'.
    apply Qle_trans with (1 # 2); [exact Hr |].
    apply Qle_trans with (q - inject_Z z); [| apply Qle_Qabs].
    change (inject_Z 1) with 1 in Hz'. lra.
  - subst z. apply Qle_refl.
  - assert (Hz' : (round_q q + 1 <= z)%Z) by lia.
    rewrite Zle_Qle, inject_Z_plus in Hz'.
    apply Qle_trans with (1 # 2); [exact Hr |].
    rewrite <- Qabs_opp.
    apply Qle_trans with (- (q - inject_Z z)); [| apply Qle_Qabs].
    change (inject_Z 1) with 1 in Hz'. lra.
Qed.

End Rounding.

(** The weather payload of the London scenario: temp 15.3, feels_like
    14.1, wind speed 3.5, no [rain] field, country GB, icon 01d. *)
Definition london_weather : value :=
  VObj [("coord", VObj [("lon", VNum (-0.1257)%Q); ("lat", VNum 51.5085%Q)]);
        ("weather", VArr [VObj [("id", VNum 800%Q); ("main", VStr "Clear");
                                ("description", VStr "clear sky");
                                ("icon", VStr "01d")]]);
        ("main", VObj [("temp", VNum 15.3%Q); ("feels_like", VNum 14.1%Q);
                       ("pressure", VNum 1012%Q); ("humidity", VNum 72%Q)]);
        ("wind", VObj [("speed", VNum 3.5%Q); ("deg", VNum 240%Q)]);
        ("sys", VObj [("country", VStr "GB")]);
        ("name", VStr "London")].

Definition london_main : value :=
  VObj [("temp", VNum 15.3%Q); ("feels_like", VNum 14.1%Q);
        ("pressure", VNum 1012%Q); ("humidity", VNum 72%Q)].

(** The report [GET /api/weather] is expected to give for it. *)
Definition london_report : value :=
  VObj [("temperature", VNum 15%Q); ("description", VStr "clear sky");
        ("coordinates", VObj [("lat", VNum 51.5085%Q); ("lon", VNum (-0.1257)%Q)]);
        ("feelsLike", VNum 14%Q); ("windSpeed", VNum 3.5%Q);
        ("countryCode", VStr "GB"); ("rainVolume", VNum 0%Q);
        ("city", VStr "London"); ("humidity", VNum 72%Q);
        ("pressure", VNum 1012%Q); ("icon", VStr "01d")].

Definition upstream_london (r : request) : fetch_result :=
  match r with
  | WeatherReq _ => Resp london_weather
  | NewsReq _ => Fail (Some 429%Z) "Request failed with status code 429"
  end.

Lemma assoc_drop (ks : list string) (fs : list (string * value)) (k : string) :
  assoc (filter (fun kv => negb (existsb (String.eqb (fst kv)) ks)) fs) k
  = if existsb (String.eqb k) ks then VUndef else assoc fs k.
Proof.
  induction fs as [| [k' v] fs IH]; cbn.
  - destruct (existsb (String.eqb k) ks); reflexivity.
  - destruct (String.eqb_spec k k') as [<- | Hne].
    + destruct (existsb (String.eqb k) ks) eqn:Ek; cbn.
      * exact IH.
      * rewrite String.eqb_refl. reflexivity.
    + destruct (existsb (String.eqb k') ks); cbn.
      * exact IH.
      * apply String.eqb_neq in Hne. rewrite Hne. exact IH.
Qed.

Lemma get_drop_fields (ks : list string) (fs : list (string * value)) (k : string) :
  get (drop_fields ks (VObj fs)) k
  = if existsb (String.eqb k) ks then Ok VUndef else get (VObj fs) k.
Proof.
  cbn. rewrite assoc_drop. destruct (existsb (String.eqb k) ks); reflexivity.
Qed.

Lemma existsb_eqb_absent (k : string) (ks : list string) :
  ~ In k ks -> existsb (String.eqb k) ks = false.
Proof.
  induction ks as [| k' ks IH]; cbn; [reflexivity |].
  intros Hn. destruct (String.eqb_spec k k') as [-> | _]; [exfalso; tauto |].
  apply IH. tauto.
Qed.

(** ** Claims *)

(** C1: on [GET /api/data?city=c], when the weather call and its mapping
    succeed (with the very report [GET /api/weather] would give) and the
    news part fails for any reason (the call is rejected, or its payload
    cannot be mapped), the response is 200, its [weather] field is that
    report and its [news] field is the placeholder with [totalResults] 0,
    no articles and an [error] note. *)
Theorem data_news_failure_degrades (upstream : request -> fetch_result)
    (c : string) (country : option string) (wd w : value)
    (Hc : c <> "")
    (Hw : upstream (WeatherReq c) = Resp wd)
    (Hp : process_weather wd = Ok w)
    (Hn : match upstream (NewsReq c) with
          | Fail _ _ => True
          | Resp nd => exists e, process_news nd = Throw e
          end) :
  fst (data_handler upstream (mk_query (Some c) country) [])
  = Ok (mk_response 200 (VObj [("weather", w); ("news", news_unavailable)])).
Proof.
  unfold data_handler, try_catch, bind, ret, lift. cbv beta zeta. cbn [q_city].
    rewrite (nonempty_truthy c Hc). cbn [negb].
  unfold axios_get at 1. cbn [to_js_string param]. rewrite Hw.
  rewrite process_weather_combined_same, Hp.
  unfold axios_get. destruct (upstream (NewsReq c)) as [nd | s m].
  - destruct Hn as [e He]. rewrite He. reflexivity.
  - reflexivity.
Qed.

Lemma data_news_failure_degrades_witness :
  fst (data_handler upstream_london (mk_query (Some "London") None) [])
  = Ok (mk_response 200 (VObj [("weather", london_report);
                               ("news", news_unavailable)])).
Proof.
  apply (data_news_failure_degrades upstream_london "London" None
           london_weather london_report).
  - discriminate.
  - reflexivity.
  - reflexivity.
  - exact I.
Defined.

(** C2 (the 401 case): on [GET /api/data], a weather call rejected with 401
    gives status 500 with the generic [Failed to fetch data] body, while
    [GET /api/weather] maps the same rejection to 401 [Invalid API key]. *)
Theorem data_weather_401_gives_500 :
  fst (data_handler upstream_weather_401 (mk_query (Some "London") None) [])
  = Ok (mk_response 500 (error_body "Failed to fetch data"
                                    "Request failed with status code 401"))
  /\ fst (weather_handler upstream_weather_401 (mk_query (Some "London") None) [])
  = Ok (mk_response 401 (error_body "Invalid API key"
                                    "Please check your OpenWeather API key")).
Proof. split; reflexivity. Qed.

(** C4: on [GET /api/data?city=c], when the weather provider rejects the
    query with 404, the response is 404 with [error] "City not found", and
    the only outbound call made is the weather call: no news call. *)
Theorem data_city_not_found_no_news (upstream : request -> fetch_result)
    (c : string) (country : option string) (msg : string)
    (Hc : c <> "")
    (Hw : upstream (WeatherReq c) = Fail (Some 404%Z) msg) :
  data_handler upstream (mk_query (Some c) country) []
  = (Ok (mk_response 404 (error_body "City not found"
                                     "Please check the city name and try again")),
     [WeatherReq c]).
Proof.
  unfold data_handler, try_catch, bind, ret, lift. cbv beta zeta. cbn [q_city].
  rewrite (nonempty_truthy c Hc). cbn [negb].
  unfold axios_get. cbn [to_js_string param]. rewrite Hw. reflexivity.
Qed.

Lemma data_city_not_found_no_news_witness :
  "UnknownPlace123" <> ""
  /\ data_handler (fun r => match r with
                            | WeatherReq _ => Fail (Some 404%Z) "Request failed with status code 404"
                            | NewsReq _ => Resp VNull
                            end)
       (mk_query (Some "UnknownPlace123") None) []
     = (Ok (mk_response 404 (error_body "City not found"
                                        "Please check the city name and try again")),
        [WeatherReq "UnknownPlace123"]).
Proof.
  split; [discriminate |].
  apply data_city_not_found_no_news with (msg := "Request failed with status code 404").
  - discriminate.
  - reflexivity.
Defined.

(** C8: with [city] absent, [GET /api/weather] and [GET /api/data] answer
    400 with an [example] usage hint, and with [city] and [country] both
    absent so does [GET /api/news]; in every case no outbound call is
    made (the log of requests stays empty). *)
Theorem missing_param_400_no_call (upstream : request -> fetch_result)
    (country : option string) :
  weather_handler upstream (mk_query None country) []
  = (Ok (mk_response 400 (example_body "City parameter is required"
                                       "/api/weather?city=London")), [])
  /\ data_handler upstream (mk_query None country) []
  = (Ok (mk_response 400 (example_body "City parameter is required"
                                       "/api/data?city=London")), [])
  /\ news_handler upstream (mk_query None None) []
  = (Ok (mk_response 400 (example_body "City or country parameter is required"
                                       "/api/news?city=London or /api/news?country=GB")), []).
Proof. repeat split. Qed.

(** C9: the weather mapping inlined in [GET /api/data] and the one of
    [GET /api/weather] give the same result (report or exception) on
    every upstream payload. *)
Theorem weather_mappings_equivalent (weatherData : value) :
  process_weather_combined weatherData = process_weather weatherData.
Proof.
  unfold process_weather_combined, process_weather. reflexivity.
Qed.

(** C5: for a payload the weather mapping accepts, whose [main.temp] and
    [main.feels_like] are numbers [t] and [f], [temperature] and
    [feelsLike] are [Math.round t] and [Math.round f], each an integer at
    least as close to the upstream value as any other integer; 14.6 rounds
    to 15 and 14.4 to 14; and the London payload (temp 15.3, feels_like
    14.1) gives temperature 15 and feelsLike 14 on [GET /api/weather]. *)
Theorem weather_temperatures_rounded (wd w main : value) (t f : Q)
    (Hp : process_weather wd = Ok w)
    (Hm : get wd "main" = Ok main)
    (Ht : get main "temp" = Ok (VNum t))
    (Hf : get main "feels_like" = Ok (VNum f)) :
  get w "temperature" = Ok (VNum (inject_Z (round_q t)))
  /\ get w "feelsLike" = Ok (VNum (inject_Z (round_q f)))
  /\ (forall z, Qabs (t - inject_Z (round_q t)) <= Qabs (t - inject_Z z))%Q
  /\ (forall z, Qabs (f - inject_Z (round_q f)) <= Qabs (f - inject_Z z))%Q
  /\ math_round (VNum 14.6%Q) = VNum 15%Q
  /\ math_round (VNum 14.4%Q) = VNum 14%Q
  /\ fst (weather_handler upstream_london (mk_query (Some "London") None) [])
     = Ok (mk_response 200 london_report).
Proof.
  unfold process_weather in Hp.
  peel_ok Hp. injection Hp as <-. merge_ok.
  split; [reflexivity |]. split; [reflexivity |].
  split; [intros z; apply round_q_nearest |].
  split; [intros z; apply round_q_nearest |].
  split; [reflexivity |]. split; reflexivity.
Qed.

Lemma weather_temperatures_rounded_witness :
  process_weather london_weather = Ok london_report
  /\ get london_report "temperature" = Ok (VNum (inject_Z (round_q 15.3%Q)))
  /\ get london_report "feelsLike" = Ok (VNum (inject_Z (round_q 14.1%Q))).
Proof.
  assert (Hp : process_weather london_weather = Ok london_report) by reflexivity.
  destruct (weather_temperatures_rounded london_weather london_report london_main
              15.3%Q 14.1%Q Hp eq_refl eq_refl eq_refl) as [H1 [H2 _]].
  split; [exact Hp |]. split; [exact H1 | exact H2].
Defined.

(** C6: for a payload the weather mapping accepts, [windSpeed] is 0 when
    [wind?.speed] is absent and when it is 0, and [rainVolume] is 0 when
    [rain?.['3h']] is absent and when it is 0; and absence is no error:
    the same payload without its [wind] and [rain] fields is accepted too,
    with [windSpeed] and [rainVolume] 0. *)
Theorem weather_wind_rain_default (wd w : value)
    (Hp : process_weather wd = Ok w) :
  (forall wind, get wd "wind" = Ok wind ->
     opt_get wind "speed" = Ok VUndef \/ opt_get wind "speed" = Ok (VNum 0%Q) ->
     get w "windSpeed" = Ok (VNum 0%Q))
  /\ (forall rain, get wd "rain" = Ok rain ->
     opt_get rain "3h" = Ok VUndef \/ opt_get rain "3h" = Ok (VNum 0%Q) ->
     get w "rainVolume" = Ok (VNum 0%Q))
  /\ (exists w', process_weather (drop_fields ["wind"; "rain"] wd) = Ok w'
       /\ get w' "windSpeed" = Ok (VNum 0%Q)
       /\ get w' "rainVolume" = Ok (VNum 0%Q)).
Proof.
  unfold process_weather in *.
  destruct wd as [| | | | | | | fs]; try (cbn in Hp; discriminate Hp).
  rewrite !get_drop_fields. cbn [existsb String.eqb Ascii.eqb Bool.eqb orb].
  peel_ok Hp. injection Hp as <-.
  split; [| split].
  - intros wind Hw Hs. merge_ok.
    destruct Hs as [Hs | Hs]; merge_ok; reflexivity.
  - intros rain Hr Hs. merge_ok.
    destruct Hs as [Hs | Hs]; merge_ok; reflexivity.
  - replay_ok. cbn. eexists. split; [reflexivity |]. split; reflexivity.
Qed.

Lemma weather_wind_rain_default_witness :
  process_weather london_weather = Ok london_report
  /\ get london_report "rainVolume" = Ok (VNum 0%Q).
Proof.
  assert (Hp : process_weather london_weather = Ok london_report) by reflexivity.
  destruct (weather_wind_rain_default london_weather london_report Hp)
    as [_ [Hrain _]].
  split; [exact Hp |].
  apply (Hrain VUndef); [reflexivity | left; reflexivity].
Defined.

(** The mappings only ever throw [TypeError]s. *)
Definition is_type_error (e : exn) : Prop :=
  match e with
  | TypeError _ => True
  | AxiosError _ _ => False
  end.

Lemma obind_throw {A B} (m : outcome A) (k : A -> outcome B) (e : exn) :
  obind m k = Throw e ->
  m = Throw e \/ exists a, m = Ok a /\ k a = Throw e.
Proof.
  destruct m as [a | e']; cbn; intros H.
  - right. exists a. split; [reflexivity | exact H].
  - left. injection H as <-. reflexivity.
Qed.

Lemma get_throw (v : value) (k : string) (e : exn) :
  get v k = Throw e -> is_type_error e.
Proof. destruct v; cbn; intros H; try discriminate H; injection H as <-; exact I. Qed.

Lemma map_article_throw (a : value) (e : exn) :
  map_article a = Throw e -> is_type_error e.
Proof.
  unfold map_article. intros H.
  repeat (apply obind_throw in H;
          destruct H as [H | [? [_ H]]]; [exact (get_throw _ _ _ H) |]).
  discriminate H.
Qed.

Lemma map_list_throw (l : list value) (e : exn) :
  map_list map_article l = Throw e -> is_type_error e.
Proof.
  induction l as [| x l IH]; cbn; intros H; [discriminate H |].
  apply obind_throw in H. destruct H as [H | [y [_ H]]].
  - exact (map_article_throw _ _ H).
  - apply obind_throw in H. destruct H as [H | [ys [_ H]]].
    + exact (IH H).
    + discriminate H.
Qed.

Lemma process_news_throw (d : value) (e : exn) :
  process_news d = Throw e -> is_type_error e.
Proof.
  unfold process_news. intros H.
  apply obind_throw in H. destruct H as [H | [? [_ H]]]; [exact (get_throw _ _ _ H) |].
  apply obind_throw in H. destruct H as [H | [arts [_ H]]]; [exact (get_throw _ _ _ H) |].
  apply obind_throw in H. destruct H as [H | [? [_ H]]]; [| discriminate H].
  destruct arts; cbn in H; try (injection H as <-; exact I).
  apply obind_throw in H. destruct H as [H | [? [_ H]]]; [| discriminate H].
  exact (map_list_throw _ _ H).
Qed.

Lemma map_list_ok (f : value -> outcome value) (l l' : list value) :
  map_list f l = Ok l' -> Forall2 (fun a o => f a = Ok o) l l'.
Proof.
  revert l'. induction l as [| x l IH]; cbn; intros l' H.
  - injection H as <-. constructor.
  - destruct (f x) as [y |] eqn:Ef; cbn in H; [| discriminate H].
    destruct (map_list f l) as [ys |] eqn:El; cbn in H; [| discriminate H].
    injection H as <-. constructor; [exact Ef | exact (IH ys eq_refl)].
Qed.

Lemma process_news_ok (d r : value) :
  process_news d = Ok r ->
  exists total arts outs,
    get d "articles" = Ok (VArr arts)
    /\ r = VObj [("totalResults", total); ("articles", VArr outs)]
    /\ Forall2 (fun a o => map_article a = Ok o) arts outs.
Proof.
  unfold process_news. intros H. peel_ok H.
  destruct a0 as [| | | | | | arts |]; cbn in E1; try discriminate E1.
  destruct (map_list map_article arts) as [outs |] eqn:Em; cbn in E1;
    [| discriminate E1].
  injection E1 as <-. injection H as <-.
  exists a, arts, outs. split; [reflexivity |]. split; [reflexivity |].
  exact (map_list_ok _ _ _ Em).
Qed.

Lemma guard_passes_false (q : query) :
  truthy (param (q_city q)) || truthy (param (q_country q)) = true ->
  negb (truthy (param (q_city q))) && negb (truthy (param (q_country q))) = false.
Proof.
  destruct (truthy (param (q_city q))), (truthy (param (q_country q)));
    cbn; congruence.
Qed.

Lemma news_handler_call (upstream : request -> fetch_result) (q : query)
    (Hq : truthy (param (q_city q)) || truthy (param (q_country q)) = true) :
  news_handler upstream q []
  = try_catch
      (newsData <- axios_get upstream (NewsReq (news_query q)) ;;
       processedNews <- lift (process_news newsData) ;;
       ret (mk_response 200 processedNews))
      (fun error =>
         if status_is error 401 then
           ret (mk_response 401 (error_body "Invalid API key"
                                            "Please check your News API key"))
         else if status_is error 429 then
           ret (mk_response 429 (error_body "API rate limit exceeded"
                                            "Please try again later"))
         else
           ret (mk_response 500 (error_body "Failed to fetch news data"
                                            (exn_message error)))) [].
Proof.
  unfold news_handler. cbv beta zeta. rewrite (guard_passes_false q Hq).
  reflexivity.
Qed.

(** C7: on [GET /api/news] with [city] or [country] given, an upstream
    rejection with 429 gives 429 with [error] "API rate limit exceeded", a
    rejection with 401 gives 401 "Invalid API key", and any other upstream
    failure (another rejection, or a payload that cannot be mapped) gives
    500 "Failed to fetch news data". *)
Theorem news_upstream_failure_status (upstream : request -> fetch_result)
    (q : query)
    (Hq : truthy (param (q_city q)) || truthy (param (q_country q)) = true) :
  (forall m, upstream (NewsReq (news_query q)) = Fail (Some 429%Z) m ->
     fst (news_handler upstream q [])
     = Ok (mk_response 429 (error_body "API rate limit exceeded"
                                       "Please try again later")))
  /\ (forall m, upstream (NewsReq (news_query q)) = Fail (Some 401%Z) m ->
     fst (news_handler upstream q [])
     = Ok (mk_response 401 (error_body "Invalid API key"
                                       "Please check your News API key")))
  /\ (forall s m, s <> Some 429%Z -> s <> Some 401%Z ->
     upstream (NewsReq (news_query q)) = Fail s m ->
     fst (news_handler upstream q [])
     = Ok (mk_response 500 (error_body "Failed to fetch news data" m)))
  /\ (forall d e, upstream (NewsReq (news_query q)) = Resp d ->
     process_news d = Throw e ->
     fst (news_handler upstream q [])
     = Ok (mk_response 500 (error_body "Failed to fetch news data"
                                       (exn_message e)))).
Proof.
  rewrite (news_handler_call upstream q Hq).
  unfold try_catch, bind, ret, lift, axios_get.
  split; [| split; [| split]].
  - intros m Hf. rewrite Hf. reflexivity.
  - intros m Hf. rewrite Hf. reflexivity.
  - intros s m H429 H401 Hf. rewrite Hf. cbn.
    unfold status_is. cbn.
    destruct s as [z |]; [| reflexivity].
    destruct (Z.eqb_spec z 401) as [-> | H1]; [congruence |].
    destruct (Z.eqb_spec z 429) as [-> | H2]; [congruence |].
    reflexivity.
  - intros d e Hr He. rewrite Hr, He. cbn.
    pose proof (process_news_throw d e He) as Ht.
    destruct e as [msg | s msg]; [reflexivity | destruct Ht].
Qed.

Lemma news_upstream_failure_status_witness :
  truthy (param (q_city (mk_query None (Some "GB"))))
  || truthy (param (q_country (mk_query None (Some "GB")))) = true
  /\ fst (news_handler upstream_london (mk_query None (Some "GB")) [])
     = Ok (mk_response 429 (error_body "API rate limit exceeded"
                                       "Please try again later")).
Proof.
  split; [reflexivity |].
  destruct (news_upstream_failure_status upstream_london (mk_query None (Some "GB"))
              eq_refl) as [H429 _].
  apply (H429 "Request failed with status code 429"). reflexivity.
Defined.

(** A news payload with six articles: more than the [pageSize=5] the
    server asks for. *)
Definition article_n (n : string) : value :=
  VObj [("source", VObj [("id", VNull); ("name", VStr "BBC News")]);
        ("title", VStr ("Headline " ++ n));
        ("description", VStr "Story");
        ("url", VStr ("https://example.com/" ++ n));
        ("urlToImage", VNull);
        ("publishedAt", VStr "2024-01-01T12:00:00Z")].

Definition news_six : value :=
  VObj [("status", VStr "ok"); ("totalResults", VNum 1234%Q);
        ("articles", VArr (map article_n ["1"; "2"; "3"; "4"; "5"; "6"]))].

Definition upstream_news_six (r : request) : fetch_result :=
  match r with
  | WeatherReq _ => Resp london_weather
  | NewsReq _ => Resp news_six
  end.

(** C10: when [GET /api/news] answers 200 from an upstream payload, its
    [articles] list is the upstream [articles] array mapped element by
    element: same length, same order, each entry the mapping of the
    upstream entry at the same position (no cap, drop or reordering by
    the server). *)
Theorem news_articles_preserved (upstream : request -> fetch_result)
    (q : query) (d b : value)
    (Hq : truthy (param (q_city q)) || truthy (param (q_country q)) = true)
    (Hr : upstream (NewsReq (news_query q)) = Resp d)
    (Hok : fst (news_handler upstream q []) = Ok (mk_response 200 b)) :
  exists arts outs,
    get d "articles" = Ok (VArr arts)
    /\ get b "articles" = Ok (VArr outs)
    /\ length outs = length arts
    /\ Forall2 (fun a o => map_article a = Ok o) arts outs.
Proof.
  rewrite (news_handler_call upstream q Hq) in Hok.
  unfold try_catch, bind, ret, lift, axios_get in Hok.
  rewrite Hr in Hok. cbn in Hok.
  destruct (process_news d) as [r | e] eqn:Hp; cbn in Hok.
  - injection Hok as <-.
    destruct (process_news_ok d r Hp) as [total [arts [outs [Ha [-> Hf]]]]].
    exists arts, outs. split; [exact Ha |]. split; [reflexivity |].
    split; [symmetry; exact (Forall2_length Hf) | exact Hf].
  - destruct (status_is e 401); [| destruct (status_is e 429)];
      injection Hok as Hs _; discriminate Hs.
Qed.

Lemma news_articles_preserved_witness :
  exists outs,
    get (VObj [("totalResults", VNum 1234%Q);
               ("articles", VArr outs)]) "articles" = Ok (VArr outs)
    /\ length outs = 6%nat.
Proof.
  destruct (news_articles_preserved upstream_news_six (mk_query (Some "London") None)
              news_six
              (VObj [("totalResults", VNum 1234%Q);
                     ("articles", VArr (map (fun n => VObj [("title", VStr ("Headline " ++ n));
                                                          ("description", VStr "Story");
                                                          ("url", VStr ("https://example.com/" ++ n));
                                                          ("publishedAt", VStr "2024-01-01T12:00:00Z");
                                                          ("source", VStr "BBC News");
                                                          ("imageUrl", VNull)])
                                             ["1"; "2"; "3"; "4"; "5"; "6"]))])
              eq_refl eq_refl eq_refl)
    as [arts [outs [Ha [Hb [Hl _]]]]].
  exists outs. split; [reflexivity |].
  cbn in Ha. injection Ha as <-. exact Hl.
Defined.

(** Upstream articles with no title, description or image: absent, and
    [null]. *)
Definition article_untitled : value :=
  VObj [("source", VObj [("id", VNull); ("name", VStr "Reuters")]);
        ("url", VStr "https://example.com/a");
        ("publishedAt", VStr "2024-01-01T12:00:00Z")].

Definition article_null_fields : value :=
  VObj [("source", VObj [("id", VNull); ("name", VStr "Reuters")]);
        ("title", VNull); ("description", VNull);
        ("url", VStr "https://example.com/b");
        ("urlToImage", VNull);
        ("publishedAt", VStr "2024-01-01T12:00:00Z")].

(** C3 (counterexample): the server's article mapping substitutes no
    empty or placeholder value: an article without title, description and
    image is mapped with those fields [undefined] (not a string), and
    [null] ones stay [null]. *)
Lemma news_article_no_placeholder :
  exists o o',
    map_article article_untitled = Ok o
    /\ get o "title" = Ok VUndef
    /\ get o "description" = Ok VUndef
    /\ get o "imageUrl" = Ok VUndef
    /\ (forall s, get o "title" <> Ok (VStr s))
    /\ (forall s, get o "description" <> Ok (VStr s))
    /\ map_article article_null_fields = Ok o'
    /\ get o' "title" = Ok VNull
    /\ get o' "description" = Ok VNull
    /\ get o' "imageUrl" = Ok VNull.
Proof.
  eexists; eexists.
  split; [reflexivity |]. split; [reflexivity |]. split; [reflexivity |].
  split; [reflexivity |].
  split; [intros s0; cbn; discriminate |].
  split; [intros s0; cbn; discriminate |].
  split; [reflexivity |]. split; [reflexivity |]. split; reflexivity.
Qed.

(** C3 (amended): the server's article mapping copies [title],
    [description] and [urlToImage] unchanged (into [title], [description]
    and [imageUrl]); an article lacking any of the three (one, two or all
    of them) is still mapped, with the missing ones [undefined] and the
    others copied; and the placeholders are the browser
    client's: a falsy title renders as "No title available", a falsy
    description as "No description available", and a falsy image as no
    image. *)
Theorem news_article_fields_copied (a o : value)
    (Hm : map_article a = Ok o) :
  get o "title" = get a "title"
  /\ get o "description" = get a "description"
  /\ get o "imageUrl" = get a "urlToImage"
  /\ (forall ks, (forall k, In k ks -> k = "title" \/ k = "description" \/ k = "urlToImage") ->
       exists o', map_article (drop_fields ks a) = Ok o'
       /\ get o' "title"
          = (if existsb (String.eqb "title") ks then Ok VUndef else get a "title")
       /\ get o' "description"
          = (if existsb (String.eqb "description") ks then Ok VUndef else get a "description")
       /\ get o' "imageUrl"
          = (if existsb (String.eqb "urlToImage") ks then Ok VUndef else get a "urlToImage"))
  /\ (forall t, get a "title" = Ok t -> truthy t = false ->
        card_title o = Ok (VStr "No title available"))
  /\ (forall t, get a "description" = Ok t -> truthy t = false ->
        card_description o = Ok (VStr "No description available"))
  /\ (forall t, get a "urlToImage" = Ok t -> truthy t = false ->
        card_img o = Ok NoImg).
Proof.
  unfold map_article in *.
  destruct a as [| | | | | | | fs]; try (cbn in Hm; discriminate Hm).
  peel_ok Hm. injection Hm as <-.
  split; [reflexivity |]. split; [reflexivity |]. split; [reflexivity |].
  split; [| split; [| split]].
  - intros ks Hks.
    assert (Hout : forall k, k <> "title" -> k <> "description" -> k <> "urlToImage" ->
                   existsb (String.eqb k) ks = false).
    { intros k H1 H2 H3. apply existsb_eqb_absent. intros Hin.
      destruct (Hks k Hin) as [Ek | [Ek | Ek]]; contradiction. }
    rewrite !get_drop_fields.
    rewrite (Hout "url"), (Hout "publishedAt"), (Hout "source") by discriminate.
    destruct (existsb (String.eqb "title") ks), (existsb (String.eqb "description") ks),
      (existsb (String.eqb "urlToImage") ks);
      replay_ok; cbn; (eexists; split; [reflexivity |]);
      cbn; replay_ok; repeat split.
  - intros t Ht Hf. merge_ok. unfold card_title, js_or. cbn. rewrite Hf. reflexivity.
  - intros t Ht Hf. merge_ok. unfold card_description, js_or. cbn. rewrite Hf. reflexivity.
  - intros t Ht Hf. merge_ok. unfold card_img. cbn. rewrite Hf. reflexivity.
Qed.

Lemma news_article_fields_copied_witness :
  map_article article_null_fields
  = Ok (VObj [("title", VNull); ("description", VNull);
              ("url", VStr "https://example.com/b");
              ("publishedAt", VStr "2024-01-01T12:00:00Z");
              ("source", VStr "Reuters"); ("imageUrl", VNull)])
  /\ card_title (VObj [("title", VNull); ("description", VNull);
                       ("url", VStr "https://example.com/b");
                       ("publishedAt", VStr "2024-01-01T12:00:00Z");
                       ("source", VStr "Reuters"); ("imageUrl", VNull)])
     = Ok (VStr "No title available")
  /\ (exists o', map_article (drop_fields ["title"] article_null_fields) = Ok o'
       /\ get o' "title" = Ok VUndef /\ get o' "description" = Ok VNull).
Proof.
  assert (Hm : map_article article_null_fields
               = Ok (VObj [("title", VNull); ("description", VNull);
                           ("url", VStr "https://example.com/b");
                           ("publishedAt", VStr "2024-01-01T12:00:00Z");
                           ("source", VStr "Reuters"); ("imageUrl", VNull)]))
    by reflexivity.
  split; [exact Hm |].
  destruct (news_article_fields_copied _ _ Hm) as [_ [_ [_ [Hd [Ht _]]]]].
  split; [apply (Ht VNull); reflexivity |].
  destruct (Hd ["title"]) as [o' [Ho [Hot [Hod _]]]].
  { intros k [<- | []]. left; reflexivity. }
  exists o'. split; [exact Ho |]. split; [exact Hot | exact Hod].
Defined.

(** ** Further properties of the server *)

Lemma opt_get_throw (v : value) (k : string) (e : exn) :
  opt_get v k = Throw e -> is_type_error e.
Proof. destruct v; cbn; intros H; try discriminate H; injection H as <-; exact I. Qed.

Lemma get_first_throw (v : value) (e : exn) :
  get_first v = Throw e -> is_type_error e.
Proof.
  destruct v as [| | | | | [| c s] | [| x l] |]; cbn; intros H;
    try discriminate H; injection H as <-; exact I.
Qed.

Lemma process_weather_throw (wd : value) (e : exn) :
  process_weather wd = Throw e -> is_type_error e.
Proof.
  unfold process_weather. intros H.
  repeat (apply obind_throw in H;
          destruct H as [H | [? [_ H]]];
          [first [exact (get_throw _ _ _ H) | exact (opt_get_throw _ _ _ H)
                 | exact (get_first_throw _ _ H)] |]).
  discriminate H.
Qed.

(** X1: on [GET /api/weather?city=c], a 404 rejection gives 404 "City not
    found", a 401 rejection gives 401 "Invalid API key", any other
    rejection gives 500 "Failed to fetch weather data" with the error's
    message, and so does a payload the mapping cannot read. *)
Theorem weather_upstream_failure_status (upstream : request -> fetch_result)
    (c : string) (country : option string) (Hc : c <> "") :
  (forall m, upstream (WeatherReq c) = Fail (Some 404%Z) m ->
     fst (weather_handler upstream (mk_query (Some c) country) [])
     = Ok (mk_response 404 (error_body "City not found"
                                       "Please check the city name and try again")))
  /\ (forall m, upstream (WeatherReq c) = Fail (Some 401%Z) m ->
     fst (weather_handler upstream (mk_query (Some c) country) [])
     = Ok (mk_response 401 (error_body "Invalid API key"
                                       "Please check your OpenWeather API key")))
  /\ (forall s m, s <> Some 404%Z -> s <> Some 401%Z ->
     upstream (WeatherReq c) = Fail s m ->
     fst (weather_handler upstream (mk_query (Some c) country) [])
     = Ok (mk_response 500 (error_body "Failed to fetch weather data" m)))
  /\ (forall d e, upstream (WeatherReq c) = Resp d -> process_weather d = Throw e ->
     fst (weather_handler upstream (mk_query (Some c) country) [])
     = Ok (mk_response 500 (error_body "Failed to fetch weather data"
                                       (exn_message e)))).
Proof.
  unfold weather_handler, try_catch, bind, ret, lift, axios_get.
  cbv beta zeta. cbn [q_city]. rewrite (nonempty_truthy c Hc). cbn [negb to_js_string param].
  split; [| split; [| split]].
  - intros m Hf. rewrite Hf. reflexivity.
  - intros m Hf. rewrite Hf. reflexivity.
  - intros s m H404 H401 Hf. rewrite Hf. cbn. unfold status_is. cbn.
    destruct s as [z |]; [| reflexivity].
    destruct (Z.eqb_spec z 404) as [-> | H1]; [congruence |].
    destruct (Z.eqb_spec z 401) as [-> | H2]; [congruence |].
    reflexivity.
  - intros d e Hr He. rewrite Hr, He. cbn.
    pose proof (process_weather_throw d e He) as Ht.
    destruct e as [msg | s msg]; [reflexivity | destruct Ht].
Qed.

Lemma weather_upstream_failure_status_witness :
  fst (weather_handler upstream_weather_401 (mk_query (Some "London") None) [])
  = Ok (mk_response 401 (error_body "Invalid API key"
                                    "Please check your OpenWeather API key")).
Proof.
  destruct (weather_upstream_failure_status upstream_weather_401 "London" None
              ltac:(discriminate)) as [_ [H401 _]].
  apply (H401 "Request failed with status code 401"). reflexivity.
Defined.

(** X2: when the weather provider answers [d] and the mapping accepts it,
    [GET /api/weather?city=c] answers 200 with the mapped report, after
    exactly one upstream call: the weather query for [c]. *)
Theorem weather_success_one_call (upstream : request -> fetch_result)
    (c : string) (country : option string) (d w : value)
    (Hc : c <> "")
    (Hr : upstream (WeatherReq c) = Resp d)
    (Hp : process_weather d = Ok w) :
  weather_handler upstream (mk_query (Some c) country) []
  = (Ok (mk_response 200 w), [WeatherReq c]).
Proof.
  unfold weather_handler, try_catch, bind, ret, lift, axios_get.
  cbv beta zeta. cbn [q_city]. rewrite (nonempty_truthy c Hc). cbn [negb to_js_string param].
  rewrite Hr. cbn. rewrite Hp. reflexivity.
Qed.

Lemma weather_success_one_call_witness :
  weather_handler upstream_london (mk_query (Some "London") None) []
  = (Ok (mk_response 200 london_report), [WeatherReq "London"]).
Proof.
  apply weather_success_one_call with (d := london_weather);
    [discriminate | reflexivity | reflexivity].
Defined.

(** X3: [GET /api/news] searches for [city] when it is a non-empty
    string, and for [country] when [city] is absent or empty; in both
    cases it makes exactly one upstream call. *)
Theorem news_query_precedence (upstream : request -> fetch_result)
    (c co : string) (Hco : co <> "") :
  (forall country, c <> "" ->
     snd (news_handler upstream (mk_query (Some c) country) []) = [NewsReq c])
  /\ (forall city, city = None \/ city = Some "" ->
     snd (news_handler upstream (mk_query city (Some co)) []) = [NewsReq co]).
Proof.
  split.
  - intros country Hc.
    rewrite news_handler_call; [| cbn [q_city]; rewrite (nonempty_truthy c Hc); reflexivity].
    unfold news_query. cbn [q_city q_country]. unfold js_or.
    rewrite (nonempty_truthy c Hc). cbn [to_js_string param].
    unfold try_catch, bind, ret, lift, axios_get.
    destruct (upstream (NewsReq c)) as [d |]; cbn; [destruct (process_news d) |];
      cbn; try reflexivity;
      repeat match goal with |- context [status_is ?e ?n] => destruct (status_is e n) end;
      reflexivity.
  - intros city Hcity.
    assert (Hf : truthy (param city) = false) by (destruct Hcity as [-> | ->]; reflexivity).
    rewrite news_handler_call;
      [| cbn [q_city q_country]; rewrite Hf, (nonempty_truthy co Hco); reflexivity].
    unfold news_query. cbn [q_city q_country]. unfold js_or. rewrite Hf.
    cbn [to_js_string param].
    unfold try_catch, bind, ret, lift, axios_get.
    destruct (upstream (NewsReq co)) as [d |]; cbn; [destruct (process_news d) |];
      cbn; try reflexivity;
      repeat match goal with |- context [status_is ?e ?n] => destruct (status_is e n) end;
      reflexivity.
Qed.

Lemma news_query_precedence_witness :
  snd (news_handler upstream_london (mk_query (Some "Paris") (Some "GB")) []) = [NewsReq "Paris"]
  /\ snd (news_handler upstream_london (mk_query (Some "") (Some "GB")) []) = [NewsReq "GB"].
Proof.
  destruct (news_query_precedence upstream_london "Paris" "GB" ltac:(discriminate))
    as [H1 H2].
  split; [apply H1; discriminate | apply H2; right; reflexivity].
Defined.

Lemma data_handler_weather_step (upstream : request -> fetch_result)
    (c : string) (country : option string) (Hc : c <> "") :
  data_handler upstream (mk_query (Some c) country) []
  = try_catch
      (weatherData <- axios_get upstream (WeatherReq c) ;;
       processedWeather <- lift (process_weather_combined weatherData) ;;
       newsData <- try_catch
                     (newsResponse <- axios_get upstream (NewsReq c) ;;
                      lift (process_news newsResponse))
                     (fun _ => ret news_unavailable) ;;
       ret (mk_response 200 (VObj [("weather", processedWeather);
                                   ("news", newsData)])))
      (fun error =>
         if status_is error 404 then
           ret (mk_response 404 (error_body "City not found"
                                            "Please check the city name and try again"))
         else
           ret (mk_response 500 (error_body "Failed to fetch data"
                                            (exn_message error)))) [].
Proof.
  unfold data_handler. cbv beta zeta. cbn [q_city].
  rewrite (nonempty_truthy c Hc). reflexivity.
Qed.

(** X4: when both providers answer and both mappings succeed,
    [GET /api/data?city=c] answers 200 with [{ weather, news }] holding the
    two mapped results, after exactly two upstream calls made one after
    the other: the weather query, then the news query, both for [c]. *)
Theorem data_success_two_calls (upstream : request -> fetch_result)
    (c : string) (country : option string) (wd w nd n : value)
    (Hc : c <> "")
    (Hw : upstream (WeatherReq c) = Resp wd)
    (Hpw : process_weather wd = Ok w)
    (Hn : upstream (NewsReq c) = Resp nd)
    (Hpn : process_news nd = Ok n) :
  data_handler upstream (mk_query (Some c) country) []
  = (Ok (mk_response 200 (VObj [("weather", w); ("news", n)])),
     [WeatherReq c; NewsReq c]).
Proof.
  rewrite (data_handler_weather_step upstream c country Hc).
  unfold try_catch, bind, ret, lift, axios_get.
  rewrite Hw. cbn. rewrite process_weather_combined_same, Hpw, Hn. cbn.
  rewrite Hpn. reflexivity.
Qed.

Lemma data_success_two_calls_witness :
  data_handler upstream_news_six (mk_query (Some "London") None) []
  = (Ok (mk_response 200
           (VObj [("weather", london_report);
                  ("news", VObj [("totalResults", VNum 1234%Q);
                                 ("articles", VArr (map (fun n => VObj [("title", VStr ("Headline " ++ n));
                                                                     ("description", VStr "Story");
                                                                     ("url", VStr ("https://example.com/" ++ n));
                                                                     ("publishedAt", VStr "2024-01-01T12:00:00Z");
                                                                     ("source", VStr "BBC News");
                                                                     ("imageUrl", VNull)])
                                                        ["1"; "2"; "3"; "4"; "5"; "6"]))])])),
     [WeatherReq "London"; NewsReq "London"]).
Proof.
  apply data_success_two_calls with (wd := london_weather) (nd := news_six);
    [discriminate | reflexivity | reflexivity | reflexivity | reflexivity].
Defined.

(** X5: on [GET /api/data?city=c], when the weather payload cannot be
    mapped, or the weather call fails without any HTTP response, the
    answer is 500 "Failed to fetch data" with the error's message, and the
    news provider is never called. *)
Theorem data_weather_failure_no_news (upstream : request -> fetch_result)
    (c : string) (country : option string) (Hc : c <> "") :
  (forall wd e, upstream (WeatherReq c) = Resp wd -> process_weather wd = Throw e ->
     data_handler upstream (mk_query (Some c) country) []
     = (Ok (mk_response 500 (error_body "Failed to fetch data" (exn_message e))),
        [WeatherReq c]))
  /\ (forall m, upstream (WeatherReq c) = Fail None m ->
     data_handler upstream (mk_query (Some c) country) []
     = (Ok (mk_response 500 (error_body "Failed to fetch data" m)), [WeatherReq c])).
Proof.
  rewrite (data_handler_weather_step upstream c country Hc).
  unfold try_catch, bind, ret, lift, axios_get.
  split.
  - intros wd e Hw He. rewrite Hw. cbn.
    rewrite process_weather_combined_same, He.
    pose proof (process_weather_throw wd e He) as Ht.
    destruct e as [msg | s msg]; [reflexivity | destruct Ht].
  - intros m Hw. rewrite Hw. reflexivity.
Qed.

(** A weather payload whose [weather] array is empty. *)
Definition weather_no_conditions : value :=
  VObj [("coord", VObj [("lon", VNum (-0.1257)%Q); ("lat", VNum 51.5085%Q)]);
        ("weather", VArr []);
        ("main", london_main);
        ("sys", VObj [("country", VStr "GB")]);
        ("name", VStr "London")].

Lemma data_weather_failure_no_news_witness :
  data_handler (fun r => match r with
                         | WeatherReq _ => Resp weather_no_conditions
                         | NewsReq _ => Resp news_six
                         end) (mk_query (Some "London") None) []
  = (Ok (mk_response 500 (error_body "Failed to fetch data"
                            "Cannot read properties of undefined (reading 'description')")),
     [WeatherReq "London"]).
Proof.
  destruct (data_weather_failure_no_news
              (fun r => match r with
                        | WeatherReq _ => Resp weather_no_conditions
                        | NewsReq _ => Resp news_six
                        end) "London" None ltac:(discriminate)) as [H _].
  apply (H weather_no_conditions
           (TypeError "Cannot read properties of undefined (reading 'description')"));
    reflexivity.
Defined.

(** Case analysis over every branch a handler can take. *)
Ltac split_branches up :=
  repeat (cbn;
          first [ match goal with
                  | |- context [if ?b then _ else _] =>
                      lazymatch type of b with bool => destruct b end
                  end
                | match goal with |- context [up ?r] => destruct (up r) end
                | match goal with |- context [process_weather ?d] =>
                    destruct (process_weather d) end
                | match goal with |- context [process_weather_combined ?d] =>
                    destruct (process_weather_combined d) end
                | match goal with |- context [process_news ?d] =>
                    destruct (process_news d) end ]).

(** X6: every request gets an answer (no handler lets an exception
    escape), with a status among those its code writes, and after a
    bounded number of upstream calls: [GET /api/weather] answers 200, 400,
    401, 404 or 500 after at most one call; [GET /api/news] answers 200,
    400, 401, 429 or 500 after at most one call; [GET /api/data] answers
    200, 400, 404 or 500 (never 401 or 429) after at most two calls. *)
Theorem handlers_always_answer (upstream : request -> fetch_result) (q : query) :
  (exists r, fst (weather_handler upstream q []) = Ok r
     /\ In (status r) [200; 400; 401; 404; 500]%Z
     /\ (length (snd (weather_handler upstream q [])) <= 1)%nat)
  /\ (exists r, fst (news_handler upstream q []) = Ok r
     /\ In (status r) [200; 400; 401; 429; 500]%Z
     /\ (length (snd (news_handler upstream q [])) <= 1)%nat)
  /\ (exists r, fst (data_handler upstream q []) = Ok r
     /\ In (status r) [200; 400; 404; 500]%Z
     /\ (length (snd (data_handler upstream q [])) <= 2)%nat).
Proof.
  unfold weather_handler, news_handler, data_handler,
    try_catch, bind, ret, lift, axios_get.
  cbv beta zeta.
  split; [| split];
    split_branches upstream;
    (eexists; split; [reflexivity |]; cbn; split; [tauto | lia]).
Qed.

Lemma map_list_in_throw (f : value -> outcome value) (l : list value) (a : value) (e : exn) :
  In a l -> f a = Throw e -> exists e', map_list f l = Throw e'.
Proof.
  induction l as [| x l IH]; cbn; [tauto |].
  intros [-> | Hin] Hf.
  - rewrite Hf. eexists; reflexivity.
  - destruct (f x) as [y | e0]; cbn.
    + destruct (IH Hin Hf) as [e' He']. rewrite He'. eexists; reflexivity.
    + eexists; reflexivity.
Qed.

Lemma map_article_no_source (a : value) :
  get a "source" = Ok VUndef \/ get a "source" = Ok VNull ->
  exists e, map_article a = Throw e.
Proof.
  intros H. unfold map_article.
  destruct a as [| | | | | | | fs]; cbn in *;
    try (destruct H as [H | H]; discriminate H);
    try (eexists; reflexivity).
  destruct H as [H | H]; injection H as H; rewrite H; eexists; reflexivity.
Qed.

Lemma news_query_city (c : string) (country : option string) :
  c <> "" -> news_query (mk_query (Some c) country) = c.
Proof.
  intros Hc. unfold news_query, js_or. cbn [q_city q_country].
  rewrite (nonempty_truthy c Hc). reflexivity.
Qed.

(** X7: one upstream article without a [source] object spoils the whole
    list: [GET /api/news?city=c] answers 500 "Failed to fetch news data"
    (no article is returned), and [GET /api/data?city=c] replaces the
    whole news part with the "News data unavailable" placeholder. *)
Theorem news_bad_article_fails_all (upstream : request -> fetch_result)
    (c : string) (country : option string) (d a : value) (arts : list value)
    (Hc : c <> "")
    (Hn : upstream (NewsReq c) = Resp d)
    (Ha : get d "articles" = Ok (VArr arts))
    (Hin : In a arts)
    (Hs : get a "source" = Ok VUndef \/ get a "source" = Ok VNull) :
  (exists m, fst (news_handler upstream (mk_query (Some c) country) [])
             = Ok (mk_response 500 (error_body "Failed to fetch news data" m)))
  /\ (forall wd w, upstream (WeatherReq c) = Resp wd -> process_weather wd = Ok w ->
        fst (data_handler upstream (mk_query (Some c) country) [])
        = Ok (mk_response 200 (VObj [("weather", w); ("news", news_unavailable)]))).
Proof.
  assert (Hpn : exists e, process_news d = Throw e).
  { destruct (map_article_no_source a Hs) as [e0 He0].
    destruct (map_list_in_throw map_article arts a e0 Hin He0) as [e He].
    unfold process_news.
    destruct d as [| | | | | | | fs]; cbn in Ha; try discriminate Ha.
    injection Ha as Ha. cbn. rewrite Ha. cbn. rewrite He. eexists; reflexivity. }
  destruct Hpn as [e He].
  split.
  - rewrite news_handler_call;
      [| cbn [q_city]; rewrite (nonempty_truthy c Hc); reflexivity].
    rewrite (news_query_city c country Hc).
    unfold try_catch, bind, ret, lift, axios_get.
    rewrite Hn. cbn. rewrite He. cbn.
    pose proof (process_news_throw d e He) as Ht.
    destruct e as [msg | s msg]; [| destruct Ht].
    eexists; reflexivity.
  - intros wd w Hw Hp.
    rewrite (data_handler_weather_step upstream c country Hc).
    unfold try_catch, bind, ret, lift, axios_get.
    rewrite Hw. cbn. rewrite process_weather_combined_same, Hp, Hn. cbn.
    rewrite He. reflexivity.
Qed.

(** A news payload whose second article has no [source]. *)
Definition article_sourceless : value :=
  VObj [("title", VStr "Orphan"); ("url", VStr "https://example.com/o")].

Definition news_sourceless : value :=
  VObj [("totalResults", VNum 2%Q);
        ("articles", VArr [article_n "1"; article_sourceless])].

Definition upstream_sourceless (r : request) : fetch_result :=
  match r with
  | WeatherReq _ => Resp london_weather
  | NewsReq _ => Resp news_sourceless
  end.

Lemma news_bad_article_fails_all_witness :
  fst (news_handler upstream_sourceless (mk_query (Some "London") None) [])
  = Ok (mk_response 500 (error_body "Failed to fetch news data"
                           "Cannot read properties of undefined (reading 'name')"))
  /\ fst (data_handler upstream_sourceless (mk_query (Some "London") None) [])
     = Ok (mk_response 200 (VObj [("weather", london_report);
                                  ("news", news_unavailable)])).
Proof.
  destruct (news_bad_article_fails_all upstream_sourceless "London" None
              news_sourceless article_sourceless [article_n "1"; article_sourceless]
              ltac:(discriminate) eq_refl eq_refl
              ltac:(right; left; reflexivity) ltac:(left; reflexivity))
    as [[m Hm] Hd].
  split.
  - reflexivity.
  - apply (Hd london_weather); reflexivity.
Defined.

(** X8: a weather payload whose [weather] array is empty is refused:
    [GET /api/weather?city=c] answers 500 "Failed to fetch weather data",
    and [GET /api/data?city=c] answers 500 "Failed to fetch data" without
    calling the news provider. *)
Theorem weather_empty_conditions_500 (upstream : request -> fetch_result)
    (c : string) (country : option string) (wd : value)
    (Hc : c <> "")
    (Hw : upstream (WeatherReq c) = Resp wd)
    (Hempty : get wd "weather" = Ok (VArr [])) :
  (exists m, fst (weather_handler upstream (mk_query (Some c) country) [])
             = Ok (mk_response 500 (error_body "Failed to fetch weather data" m)))
  /\ (exists m, data_handler upstream (mk_query (Some c) country) []
             = (Ok (mk_response 500 (error_body "Failed to fetch data" m)), [WeatherReq c])).
Proof.
  assert (Hp : exists e, process_weather wd = Throw e).
  { destruct (process_weather wd) as [w |] eqn:Hp; [exfalso | eexists; reflexivity].
    unfold process_weather in Hp. peel_ok Hp. merge_ok.
    match goal with H : get_first (VArr []) = Ok _ |- _ => cbn in H; injection H as <- end.
    match goal with H : get VUndef _ = Ok _ |- _ => discriminate H end. }
  destruct Hp as [e He].
  pose proof (process_weather_throw wd e He) as Ht.
  destruct e as [msg | s msg]; [| destruct Ht].
  split.
  - exists msg.
    unfold weather_handler, try_catch, bind, ret, lift, axios_get.
    cbv beta zeta. cbn [q_city]. rewrite (nonempty_truthy c Hc).
    cbn [negb to_js_string param]. rewrite Hw. cbn. rewrite He. reflexivity.
  - exists msg.
    rewrite (data_handler_weather_step upstream c country Hc).
    unfold try_catch, bind, ret, lift, axios_get.
    rewrite Hw. cbn. rewrite process_weather_combined_same, He. reflexivity.
Qed.

Lemma weather_empty_conditions_500_witness :
  fst (weather_handler (fun r => match r with
                                 | WeatherReq _ => Resp weather_no_conditions
                                 | NewsReq _ => Resp news_six
                                 end) (mk_query (Some "London") None) [])
  = Ok (mk_response 500 (error_body "Failed to fetch weather data"
                           "Cannot read properties of undefined (reading 'description')")).
Proof.
  destruct (weather_empty_conditions_500
              (fun r => match r with
                        | WeatherReq _ => Resp weather_no_conditions
                        | NewsReq _ => Resp news_six
                        end) "London" None weather_no_conditions
              ltac:(discriminate) eq_refl eq_refl) as [[m Hm] _].
  reflexivity.
Defined.

(** Test-input helper: the object [o] with property [k] set to [v]. *)
Definition put_field (k : string) (v o : value) : value :=
  match drop_fields [k] o with
  | VObj fs => VObj ((k, v) :: fs)
  | o' => o'
  end.

Lemma get_put_field (k k' : string) (v : value) (fs : list (string * value)) :
  get (put_field k v (VObj fs)) k'
  = if String.eqb k' k then Ok v else get (VObj fs) k'.
Proof.
  unfold put_field. cbn [drop_fields get assoc].
  rewrite assoc_drop. cbn [existsb].
  destruct (String.eqb k' k); reflexivity.
Qed.

(** X9: a missing [main.temp] or [main.feels_like] is no error: taking
    them out of an accepted payload still gives a report, with
    [temperature] and [feelsLike] NaN ([Math.round(undefined)]) and the
    other fields unchanged. *)
Theorem weather_missing_temp_nan (fs mfs : list (string * value)) (w : value)
    (Hp : process_weather (VObj fs) = Ok w)
    (Hm : get (VObj fs) "main" = Ok (VObj mfs)) :
  exists w',
    process_weather (put_field "main" (drop_fields ["temp"; "feels_like"] (VObj mfs))
                               (VObj fs)) = Ok w'
    /\ get w' "temperature" = Ok VNaN
    /\ get w' "feelsLike" = Ok VNaN
    /\ (forall k, k <> "temperature" -> k <> "feelsLike" -> get w' k = get w k).
Proof.
  unfold process_weather in *.
  rewrite !get_put_field. cbn [String.eqb Ascii.eqb Bool.eqb andb obind].
  rewrite !get_drop_fields. cbn [existsb String.eqb Ascii.eqb Bool.eqb orb andb].
  peel_ok Hp. injection Hp as <-. merge_ok.
  replay_ok. cbn. eexists. split; [reflexivity |].
  split; [reflexivity |]. split; [reflexivity |].
  intros k Ht Hf. cbn.
  apply String.eqb_neq in Ht, Hf. rewrite Ht, Hf. reflexivity.
Qed.

Lemma weather_missing_temp_nan_witness :
  exists w',
    process_weather (put_field "main" (drop_fields ["temp"; "feels_like"] london_main)
                               london_weather) = Ok w'
    /\ get w' "temperature" = Ok VNaN.
Proof.
  destruct (weather_missing_temp_nan
              [("coord", VObj [("lon", VNum (-0.1257)%Q); ("lat", VNum 51.5085%Q)]);
               ("weather", VArr [VObj [("id", VNum 800%Q); ("main", VStr "Clear");
                                       ("description", VStr "clear sky");
                                       ("icon", VStr "01d")]]);
               ("main", london_main);
               ("wind", VObj [("speed", VNum 3.5%Q); ("deg", VNum 240%Q)]);
               ("sys", VObj [("country", VStr "GB")]);
               ("name", VStr "London")]
              [("temp", VNum 15.3%Q); ("feels_like", VNum 14.1%Q);
               ("pressure", VNum 1012%Q); ("humidity", VNum 72%Q)]
              london_report eq_refl eq_refl)
    as [w' [Hw' [Ht _]]].
  exists w'. split; [exact Hw' | exact Ht].
Defined.

(** X10: [Math.round] rounds a half upwards (2.5 to 3, -2.5 to -2) and
    leaves integers unchanged. *)
Theorem math_round_half_up (n : Z) :
  math_round (VNum (inject_Z n + (1 # 2))%Q) = VNum (inject_Z (n + 1))
  /\ math_round (VNum (inject_Z n)) = VNum (inject_Z n).
Proof.
  unfold math_round, to_number, round_q. split.
  - assert (Heq : (inject_Z n + (1 # 2) + (1 # 2) == inject_Z (n + 1))%Q).
    { rewrite inject_Z_plus. change (inject_Z 1) with 1%Q. lra. }
    rewrite (Qfloor_comp _ _ Heq), Qfloor_Z. reflexivity.
  - assert (Hf : Qfloor (inject_Z n + (1 # 2)) = n).
    { pose proof (Qfloor_le (inject_Z n + (1 # 2))) as H1.
      pose proof (Qlt_floor (inject_Z n + (1 # 2))) as H2.
      set (f := Qfloor (inject_Z n + (1 # 2))) in *.
      rewrite inject_Z_plus in H2. change (inject_Z 1) with 1%Q in H2.
      destruct (Z.le_gt_cases f n) as [Hle | Hgt].
      - destruct (Z.le_gt_cases n f) as [Hge | Hlt]; [lia |].
        assert (Hq : (f + 1 <= n)%Z) by lia.
        rewrite Zle_Qle, inject_Z_plus in Hq. change (inject_Z 1) with 1%Q in Hq.
        lra.
      - assert (Hq : (n + 1 <= f)%Z) by lia.
        rewrite Zle_Qle, inject_Z_plus in Hq. change (inject_Z 1) with 1%Q in Hq.
        lra. }
    rewrite Hf. reflexivity.
Qed.

(** ** Browser client *)

(** The fields the display functions never write: the error banner, the
    loading indicator and the requests sent. *)
Definition core_same (p p' : page) : Prop :=
  error_text p' = error_text p /\ error_shown p' = error_shown p
  /\ loading_display p' = loading_display p /\ sent p' = sent p.

Lemma core_same_trans (p1 p2 p3 : page) :
  core_same p1 p2 -> core_same p2 p3 -> core_same p1 p3.
Proof. unfold core_same. intuition congruence. Qed.

(** Case analysis over the results and tests of a client computation. *)
Ltac cm_cases :=
  repeat (cbn -[get to_fixed2 truthy gt0 get_length createNewsCard];
          match goal with
          | |- context [match ?o with Ok _ => _ | Throw _ => _ end] => destruct o
          | |- context [if ?b then _ else _] =>
              lazymatch type of b with bool => destruct b end
          end).

Lemma displayWeatherData_core (v : value) (p : page) :
  core_same p (snd (displayWeatherData v p))
  /\ (forall p', displayWeatherData v p = (COk tt, p') -> weather_display p' = "block").
Proof.
  unfold displayWeatherData, cbind, clift, set_text, modify, cret, showWeatherSection.
  cm_cases;
    (split; [unfold core_same; cbn; repeat split
            | intros p' Hp; try discriminate Hp; injection Hp as <-; reflexivity]).
Qed.

Lemma append_cards_core (l : list value) (p : page) :
  core_same p (snd (append_cards l p))
  /\ weather_display (snd (append_cards l p)) = weather_display p.
Proof.
  revert p. induction l as [|a l IH]; intros p; cbn -[createNewsCard].
  - unfold core_same; repeat split.
  - unfold cbind, clift, modify. destruct (createNewsCard a); cbn.
    + destruct (IH (set_news_nodes (news_nodes p ++ [NewsCard a0]) p)) as [H1 H2].
      split; [eapply core_same_trans; [|exact H1]; unfold core_same; cbn; repeat split
             | rewrite H2; reflexivity].
    + unfold core_same; repeat split.
Qed.

Lemma displayNewsData_core (a : value) (p : page) :
  core_same p (snd (displayNewsData a p))
  /\ weather_display (snd (displayNewsData a p)) = weather_display p
  /\ (forall p', displayNewsData a p = (COk tt, p') -> news_display p' = "block").
Proof.
  unfold displayNewsData, cbind, modify, showNewsSection.
  destruct a; cbn; try (split; [unfold core_same; repeat split | split; [reflexivity | discriminate]]).
  destruct (append_cards_core items (set_news_nodes [] p)) as [H1 H2].
  destruct (append_cards items (set_news_nodes [] p)) as [[[]|msg] p1]; cbn in *.
  - split; [|split; [exact H2 | intros p' Hp; cbn in Hp; injection Hp as <-; reflexivity]].
    eapply core_same_trans; [|exact H1]. unfold core_same; cbn; repeat split.
  - split; [|split; [exact H2 | discriminate]].
    eapply core_same_trans; [|exact H1]. unfold core_same; cbn; repeat split.
Qed.

Lemma renderData_core (data : value) (p p' : page) (r : cresult unit) :
  renderData data p = (r, p') ->
  core_same p p' /\ (r = COk tt -> weather_display p' = "block" /\ news_display p' = "block").
Proof.
  intros H. unfold renderData, cbind at 1, clift at 1 in H.
  destruct (get data "weather") as [w|e]; cbn in H;
    [| injection H as <- <-; split; [unfold core_same; repeat split | discriminate]].
  unfold cbind at 1 in H.
  destruct (displayWeatherData_core w p) as [Hc Hb].
  destruct (displayWeatherData w p) as [[[]|msg] p1]; cbn in Hc, H;
    [| injection H as <- <-; split; [exact Hc | discriminate]].
  specialize (Hb p1 eq_refl).
  assert (Hnews : forall m : CM unit,
            (forall q, core_same q (snd (m q))
                       /\ weather_display (snd (m q)) = weather_display q
                       /\ (forall q', m q = (COk tt, q') -> news_display q' = "block")) ->
            m p1 = (r, p') ->
            core_same p p' /\ (r = COk tt -> weather_display p' = "block" /\ news_display p' = "block")).
  { intros m Hm Hmp. destruct (Hm p1) as [H1 [H2 H3]]. rewrite Hmp in H1, H2, H3. cbn in H1, H2.
    split; [eapply core_same_trans; eauto|].
    intros ->. split; [congruence | now apply H3]. }
  assert (Hnone : forall q, core_same q (snd (displayNoNews q))
                       /\ weather_display (snd (displayNoNews q)) = weather_display q
                       /\ (forall q', displayNoNews q = (COk tt, q') -> news_display q' = "block")).
  { intros q. cbn. split; [unfold core_same; repeat split | split; [reflexivity|]].
    intros q' Hq. cbn in Hq. injection Hq as <-. reflexivity. }
  unfold cbind, clift, cret in H.
  repeat (cbn -[get truthy get_length gt0 displayNewsData displayNoNews] in H;
          match type of H with
          | context [match ?o with Ok _ => _ | Throw _ => _ end] => destruct o
          | context [if ?b then _ else _] =>
              lazymatch type of b with bool => destruct b end
          end);
    first [ injection H as <- <-; split; [exact Hc | discriminate]
          | eapply Hnews; [|exact H]; first [apply displayNewsData_core | apply Hnone]].
Qed.

Lemma throwIfNotOk_page (resp : response) (data : value) (p p' : page) (r : cresult unit) :
  throwIfNotOk resp data p = (r, p') -> p' = p.
Proof.
  unfold throwIfNotOk, cbind, clift, cret, cthrow. intros H.
  repeat (cbn -[get truthy] in H;
          match type of H with
          | context [match ?o with Ok _ => _ | Throw _ => _ end] => destruct o
          | context [if ?b then _ else _] =>
              lazymatch type of b with bool => destruct b end
          end); injection H as _ <-; reflexivity.
Qed.

(** X11: a search whose input is empty or only white space (any of the
    code points [String.prototype.trim] strips) shows "Please
    enter a city name", hides both sections, sends no request and leaves
    the loading indicator as it was. *)
Theorem client_blank_input (upstream : request -> fetch_result) (input : string) (p : page)
    (H : js_trim input = "") :
  fetchWeatherData upstream input p
  = (COk tt, mk_page "Please enter a city name" true (loading_display p) "none" "none"
                     (texts p) (icon p) (news_nodes p) (sent p)).
Proof.
  unfold fetchWeatherData. rewrite H. reflexivity.
Qed.

Lemma client_blank_input_witness :
  js_trim "  	 " = "" /\
  fetchWeatherData upstream_london "  	 " (mk_page "" false "none" "block" "block" [] None [] [])
  = (COk tt, mk_page "Please enter a city name" true "none" "none" "none" [] None [] []).
Proof.
  split; [reflexivity | apply (client_blank_input upstream_london "  	 "); reflexivity].
Defined.

(** X12: whatever the providers do, a search with a non-blank input sends
    exactly one request, for the trimmed input, ends with the loading
    indicator hidden, and ends either with the error banner shown or with
    both the weather and the news sections shown. *)
Theorem client_search_one_request (upstream : request -> fetch_result) (input : string) (p : page)
    (H : js_trim input <> "") :
  let p' := snd (fetchWeatherData upstream input p) in
  sent p' = js_trim input :: sent p /\ loading_display p' = "none"
  /\ (error_shown p' = true \/ (weather_display p' = "block" /\ news_display p' = "block")).
Proof.
  cbv zeta. destruct (fetchWeatherData upstream input p) as [r p'] eqn:E. cbn [snd].
  unfold fetchWeatherData in E. apply String.eqb_neq in H. rewrite H in E.
  set (city := js_trim input) in *. set (data := json_rt (body (serve_data upstream city))) in *.
  unfold cbind, ctry, hideErrorMessage, hideWeatherSection, hideNewsSection,
    showLoading, modify in E. cbn -[throwIfNotOk renderData] in E.
  match type of E with context [throwIfNotOk ?r ?d ?q] =>
    destruct (throwIfNotOk r d q) as [[[]|msg] p0] eqn:Et end;
    apply throwIfNotOk_page in Et; subst p0; cbn -[renderData] in E.
  - match type of E with context [renderData ?d ?q] =>
      destruct (renderData d q) as [r1 p1] eqn:Er end.
    apply renderData_core in Er as [[He1 [He2 [Hl Hs]]] Hok].
    destruct r1 as [[]|msg]; cbn in E; injection E as <- <-; cbn.
    + rewrite Hs, Hl. split; [reflexivity|split; [reflexivity|right; now apply Hok]].
    + rewrite Hs. split; [reflexivity | split; [reflexivity | left; reflexivity]].
  - injection E as <- <-. split; [reflexivity | split; [reflexivity | left; reflexivity]].
Qed.

Lemma client_search_one_request_witness :
  js_trim " London  " = "London" /\
  (let p' := snd (fetchWeatherData upstream_weather_401 " London  "
                    (mk_page "" false "none" "none" "none" [] None [] [])) in
   sent p' = js_trim " London  " :: [] /\ loading_display p' = "none"
   /\ (error_shown p' = true \/ (weather_display p' = "block" /\ news_display p' = "block"))).
Proof.
  split; [reflexivity | apply (client_search_one_request upstream_weather_401 " London  ");
                        intros Hc; vm_compute in Hc; discriminate Hc].
Defined.

Fixpoint distinct_keys (ks : list string) : bool :=
  match ks with
  | [] => true
  | k :: ks' => negb (existsb (String.eqb k) ks') && distinct_keys ks'
  end.

Lemma assoc_absent (fs : list (string * value)) (k : string) :
  existsb (String.eqb k) (map fst fs) = false -> assoc fs k = VUndef.
Proof.
  induction fs as [|[k' x] fs IH]; cbn; [reflexivity|].
  intros H. apply orb_false_iff in H as [H1 H2]. rewrite H1. now apply IH.
Qed.

Lemma get_json_rt (fs : list (string * value)) (k : string) :
  distinct_keys (map fst fs) = true ->
  get (json_rt (VObj fs)) k = Ok (json_rt (assoc fs k)).
Proof.
  induction fs as [|[k' x] fs IH]; cbn; [reflexivity|].
  intros H. apply andb_true_iff in H as [H1 H2]. apply negb_true_iff in H1.
  specialize (IH H2). cbn in IH. injection IH as IH.
  destruct (String.eqb k k') eqn:Ek.
  - apply String.eqb_eq in Ek. subst k'.
    destruct x; cbn; try (rewrite String.eqb_refl; reflexivity).
    rewrite IH, (assoc_absent fs k H1). reflexivity.
  - destruct x; cbn; try rewrite Ek; rewrite IH; reflexivity.
Qed.

Lemma display_report_ok (wd w co : value) (la lo : Q) (p : page)
    (Hpw : process_weather wd = Ok w)
    (Hco : get wd "coord" = Ok co)
    (Hla : get co "lat" = Ok (VNum la))
    (Hlo : get co "lon" = Ok (VNum lo)) :
  exists p', displayWeatherData (json_rt w) p = (COk tt, p')
    /\ weather_display p' = "block" /\ core_same p p'
    /\ news_display p' = news_display p /\ news_nodes p' = news_nodes p
    /\ In ("coordinates", TCat (TFixed2 la) (TCat (TLit ", ") (TFixed2 lo))) (texts p').
Proof.
  unfold process_weather in Hpw. peel_ok Hpw. injection Hpw as <-. merge_ok.
  unfold displayWeatherData. rewrite !get_json_rt by reflexivity.
  cbn -[gt0 truthy].
  match goal with |- context [gt0 ?x] => destruct (gt0 x) end;
  cbn -[truthy];
  match goal with |- context [truthy ?x] => destruct (truthy x) end; cbn;
    (eexists; split; [reflexivity|]);
    cbn; (split; [reflexivity | split; [unfold core_same; repeat split | repeat split]]);
    cbn; repeat (first [left; reflexivity | right]).
Qed.

(** The [news] field of a 200 answer of [GET /api/data?city=c]. *)
Definition news_field (upstream : request -> fetch_result) (c : string) : value :=
  match upstream (NewsReq c) with
  | Resp nd => match process_news nd with Ok n => n | Throw _ => news_unavailable end
  | Fail _ _ => news_unavailable
  end.

Lemma serve_data_weather_ok (upstream : request -> fetch_result) (c : string) (wd w : value)
    (Hc : c <> "") (Hw : upstream (WeatherReq c) = Resp wd) (Hpw : process_weather wd = Ok w) :
  serve_data upstream c = mk_response 200 (VObj [("weather", w); ("news", news_field upstream c)]).
Proof.
  unfold serve_data. rewrite (data_handler_weather_step upstream c None Hc).
  unfold try_catch, bind, ret, lift, axios_get, news_field.
  rewrite Hw. cbn. rewrite process_weather_combined_same, Hpw.
  destruct (upstream (NewsReq c)) as [nd|s m]; cbn; [|reflexivity].
  destruct (process_news nd); reflexivity.
Qed.

Lemma serve_data_weather_fail (upstream : request -> fetch_result) (c : string)
    (s : option Z) (m : string)
    (Hc : c <> "") (Hw : upstream (WeatherReq c) = Fail s m) :
  serve_data upstream c
  = if status_is (AxiosError s m) 404
    then mk_response 404 (error_body "City not found" "Please check the city name and try again")
    else mk_response 500 (error_body "Failed to fetch data" m).
Proof.
  unfold serve_data. rewrite (data_handler_weather_step upstream c None Hc).
  unfold try_catch, bind, ret, lift, axios_get. rewrite Hw. cbn.
  destruct (status_is (AxiosError s m) 404); reflexivity.
Qed.

(** X13: when the weather provider rejects the query, the page shows "City
    not found" for a 404 and "Failed to fetch data" for any other failure
    (401 included), with both sections hidden. *)
Theorem client_weather_failure_message (upstream : request -> fetch_result) (input : string)
    (p : page) (s : option Z) (m : string)
    (H : js_trim input <> "")
    (Hw : upstream (WeatherReq (js_trim input)) = Fail s m) :
  fetchWeatherData upstream input p
  = (COk tt, mk_page (if status_is (AxiosError s m) 404 then "City not found"
                      else "Failed to fetch data")
                     true "none" "none" "none"
                     (texts p) (icon p) (news_nodes p) (js_trim input :: sent p)).
Proof.
  unfold fetchWeatherData. pose proof H as H'. apply String.eqb_neq in H'. rewrite H'.
  rewrite (serve_data_weather_fail upstream _ s m H Hw).
  destruct (status_is (AxiosError s m) 404); reflexivity.
Qed.

Lemma client_weather_failure_message_witness :
  js_trim "London" <> "" /\
  upstream_weather_401 (WeatherReq (js_trim "London")) = Fail (Some 401%Z) "Request failed with status code 401" /\
  fetchWeatherData upstream_weather_401 "London" (mk_page "" false "none" "block" "block" [] None [] [])
  = (COk tt, mk_page "Failed to fetch data" true "none" "none" "none" [] None [] ["London"]).
Proof.
  split; [discriminate | split; [reflexivity|]].
  exact (client_weather_failure_message upstream_weather_401 "London"
           (mk_page "" false "none" "block" "block" [] None [] []) (Some 401%Z)
           "Request failed with status code 401" ltac:(discriminate) eq_refl).
Defined.

(** X14: when the weather payload is fetched and mapped, its [coord.lat]
    and [coord.lon] are numbers, and the news provider rejects the query,
    the page shows the weather section and the news section holding only
    the no-news message, with no error banner. *)
Theorem client_news_failure_shows_weather (upstream : request -> fetch_result) (input : string)
    (p : page) (wd w co : value) (la lo : Q) (s : option Z) (m : string)
    (H : js_trim input <> "")
    (Hw : upstream (WeatherReq (js_trim input)) = Resp wd)
    (Hpw : process_weather wd = Ok w)
    (Hco : get wd "coord" = Ok co)
    (Hla : get co "lat" = Ok (VNum la))
    (Hlo : get co "lon" = Ok (VNum lo))
    (Hn : upstream (NewsReq (js_trim input)) = Fail s m) :
  exists p', fetchWeatherData upstream input p = (COk tt, p')
    /\ error_shown p' = false /\ loading_display p' = "none"
    /\ weather_display p' = "block" /\ news_display p' = "block"
    /\ news_nodes p' = [NoNewsDiv] /\ sent p' = js_trim input :: sent p.
Proof.
  unfold fetchWeatherData. pose proof H as H'. apply String.eqb_neq in H'. rewrite H'.
  rewrite (serve_data_weather_ok upstream _ wd w H Hw Hpw). unfold news_field. rewrite Hn.
  unfold renderData. cbv beta zeta. cbn [body status].
  rewrite !get_json_rt by reflexivity.
  unfold ctry, cbind, clift, modify, cret, hideLoading.
  cbn -[displayWeatherData].
  match goal with |- context [displayWeatherData (json_rt w) ?q] =>
    destruct (display_report_ok wd w co la lo q Hpw Hco Hla Hlo)
      as (p1 & Hd & Hb & [He1 [He2 [Hl Hs]]] & Hnd & Hnn & _); rewrite Hd end.
  cbn in *. eexists; split; [reflexivity|]. cbn.
  rewrite He2, Hl, Hb, Hs. repeat split.
Qed.

(** The page before any search: no error, nothing displayed. *)
Definition page0 : page := mk_page "" false "none" "none" "none" [] None [] [].

Lemma client_news_failure_shows_weather_witness :
  exists p', fetchWeatherData upstream_london "London" page0 = (COk tt, p')
    /\ error_shown p' = false /\ loading_display p' = "none"
    /\ weather_display p' = "block" /\ news_display p' = "block"
    /\ news_nodes p' = [NoNewsDiv] /\ sent p' = js_trim "London" :: sent page0.
Proof.
  exact (client_news_failure_shows_weather upstream_london "London" page0
           london_weather london_report
           (VObj [("lon", VNum (-0.1257)%Q); ("lat", VNum 51.5085%Q)])
           51.5085%Q (-0.1257)%Q (Some 429%Z) "Request failed with status code 429"
           ltac:(discriminate) eq_refl eq_refl eq_refl eq_refl eq_refl eq_refl).
Defined.

Lemma display_report_no_lat (wd w co : value) (p : page)
    (Hpw : process_weather wd = Ok w)
    (Hco : get wd "coord" = Ok co)
    (Hla : get co "lat" = Ok VUndef) :
  exists p', displayWeatherData (json_rt w) p
             = (CThrow "Cannot read properties of undefined (reading 'toFixed')", p')
    /\ weather_display p' = weather_display p /\ core_same p p'
    /\ news_display p' = news_display p.
Proof.
  unfold process_weather in Hpw. peel_ok Hpw. injection Hpw as <-. merge_ok.
  unfold displayWeatherData. rewrite !get_json_rt by reflexivity.
  cbn -[gt0 truthy json_rt].
  match goal with |- context [gt0 ?x] => destruct (gt0 x) end;
  cbn -[json_rt]; rewrite !get_json_rt by reflexivity; cbn; (eexists; split; [reflexivity|]);
  cbn; (split; [reflexivity | split; [unfold core_same; repeat split | reflexivity]]).
Qed.

(** X15: when the weather payload has no [coord.lat], the server still
    answers 200, but the page shows the [toFixed] TypeError's message and
    neither section. *)
Theorem client_missing_lat_error (upstream : request -> fetch_result) (input : string)
    (p : page) (wd w co : value)
    (H : js_trim input <> "")
    (Hw : upstream (WeatherReq (js_trim input)) = Resp wd)
    (Hpw : process_weather wd = Ok w)
    (Hco : get wd "coord" = Ok co)
    (Hla : get co "lat" = Ok VUndef) :
  exists p', fetchWeatherData upstream input p = (COk tt, p')
    /\ error_text p' = "Cannot read properties of undefined (reading 'toFixed')"
    /\ error_shown p' = true /\ loading_display p' = "none"
    /\ weather_display p' = "none" /\ news_display p' = "none"
    /\ sent p' = js_trim input :: sent p.
Proof.
  unfold fetchWeatherData. pose proof H as H'. apply String.eqb_neq in H'. rewrite H'.
  rewrite (serve_data_weather_ok upstream _ wd w H Hw Hpw).
  unfold renderData. cbv beta zeta. cbn [body status].
  rewrite !get_json_rt by reflexivity.
  unfold ctry, cbind, clift, modify, cret, hideLoading.
  cbn -[displayWeatherData json_rt].
  match goal with |- context [displayWeatherData (json_rt w) ?q] =>
    destruct (display_report_no_lat wd w co q Hpw Hco Hla)
      as (p1 & Hd & Hb & [He1 [He2 [Hl Hs]]] & Hnd); rewrite Hd end.
  cbn in *. eexists; split; [reflexivity|]. cbn.
  rewrite Hb, Hnd, Hs. repeat split.
Qed.

(** A London payload whose [coord] has no [lat]. *)
Definition london_no_lat : value :=
  put_field "coord" (VObj [("lon", VNum (-0.1257)%Q)]) london_weather.

Definition upstream_no_lat (r : request) : fetch_result :=
  match r with
  | WeatherReq _ => Resp london_no_lat
  | NewsReq _ => Resp news_six
  end.

Lemma client_missing_lat_error_witness :
  exists p', fetchWeatherData upstream_no_lat "London" page0 = (COk tt, p')
    /\ error_text p' = "Cannot read properties of undefined (reading 'toFixed')"
    /\ error_shown p' = true /\ loading_display p' = "none"
    /\ weather_display p' = "none" /\ news_display p' = "none"
    /\ sent p' = js_trim "London" :: sent page0.
Proof.
  exact (client_missing_lat_error upstream_no_lat "London" page0 london_no_lat
           (VObj [("temperature", VNum 15%Q); ("description", VStr "clear sky");
                  ("coordinates", VObj [("lat", VUndef); ("lon", VNum (-0.1257)%Q)]);
                  ("feelsLike", VNum 14%Q); ("windSpeed", VNum 3.5%Q);
                  ("countryCode", VStr "GB"); ("rainVolume", VNum 0%Q);
                  ("city", VStr "London"); ("humidity", VNum 72%Q);
                  ("pressure", VNum 1012%Q); ("icon", VStr "01d")])
           (VObj [("lon", VNum (-0.1257)%Q)])
           ltac:(discriminate) eq_refl eq_refl eq_refl eq_refl).
Defined.

(** [node] is the card [createNewsCard] builds for the upstream article
    [a]: titled with [a.title] (or the placeholder), linking to [a.url]. *)
Definition card_for (a : value) (node : news_node) : Prop :=
  exists t u c, get a "title" = Ok t /\ get a "url" = Ok u /\ node = NewsCard c
    /\ card_title_of c = js_or (json_rt t) (VStr "No title available")
    /\ card_link c = json_rt u.

Lemma map_article_card (a o : value) :
  map_article a = Ok o ->
  (exists fs, o = VObj fs)
  /\ exists c, createNewsCard (json_rt o) = Ok c /\ card_for a (NewsCard c).
Proof.
  unfold map_article. intros Hm. peel_ok Hm. injection Hm as <-.
  split; [eexists; reflexivity|].
  unfold createNewsCard, card_img, card_source, card_title, card_description.
  rewrite !get_json_rt by reflexivity. cbn -[json_rt truthy].
  eexists; split; [reflexivity|].
  exists a0, a2; eexists; repeat split; assumption.
Qed.

Lemma json_rt_articles (arts outs : list value) :
  Forall2 (fun a o => map_article a = Ok o) arts outs ->
  json_rt (VArr outs) = VArr (map json_rt outs).
Proof.
  intros Hf. cbn. f_equal. induction Hf as [|a o arts outs Ho Hf IH]; [reflexivity|].
  cbn. rewrite IH. destruct (map_article_card a o Ho) as [[fs ->] _]. reflexivity.
Qed.

Lemma append_cards_ok (arts outs : list value) (p : page) :
  Forall2 (fun a o => map_article a = Ok o) arts outs ->
  exists nodes, append_cards (map json_rt outs) p
                = (COk tt, set_news_nodes (news_nodes p ++ nodes) p)
    /\ Forall2 card_for arts nodes.
Proof.
  intros Hf. revert p. induction Hf as [|a o arts outs Ho Hf IH]; intros p.
  - exists []. rewrite app_nil_r. split; [|constructor]. destruct p; reflexivity.
  - destruct (map_article_card a o Ho) as [_ [c [Hc Hcf]]].
    cbn [map append_cards]. unfold cbind at 1, clift at 1. rewrite Hc.
    unfold cbind, modify. cbn -[append_cards].
    destruct (IH (set_news_nodes (news_nodes p ++ [NewsCard c]) p)) as [nodes [Ha Hn]].
    rewrite Ha. exists (NewsCard c :: nodes). split; [|constructor; assumption].
    cbn. rewrite <- app_assoc. reflexivity.
Qed.

Lemma truthy_json_rt_obj (fs : list (string * value)) : truthy (json_rt (VObj fs)) = true.
Proof. reflexivity. Qed.

Lemma gt0_length {A} (l : list A) :
  l <> [] -> gt0 (VNum (inject_Z (Z.of_nat (length l)))) = true.
Proof.
  destruct l as [|x l]; [contradiction|]. intros _.
  unfold gt0, to_number, Qle_bool. cbn -[Z.of_nat].
  apply negb_true_iff, Z.leb_gt. lia.
Qed.

(** X16: when both providers answer, both payloads are mapped, the
    weather's [coord.lat] and [coord.lon] are numbers and the upstream
    [articles] array is not empty, the news section holds one card per
    upstream article, in the upstream order, each titled with the
    article's title (or "No title available") and linking to its url. *)
Theorem client_articles_one_card_each (upstream : request -> fetch_result) (input : string)
    (p : page) (wd w co nd n : value) (la lo : Q) (arts : list value)
    (H : js_trim input <> "")
    (Hw : upstream (WeatherReq (js_trim input)) = Resp wd)
    (Hpw : process_weather wd = Ok w)
    (Hco : get wd "coord" = Ok co)
    (Hla : get co "lat" = Ok (VNum la))
    (Hlo : get co "lon" = Ok (VNum lo))
    (Hn : upstream (NewsReq (js_trim input)) = Resp nd)
    (Hpn : process_news nd = Ok n)
    (Ha : get nd "articles" = Ok (VArr arts))
    (Hne : arts <> []) :
  exists p', fetchWeatherData upstream input p = (COk tt, p')
    /\ error_shown p' = false /\ loading_display p' = "none"
    /\ weather_display p' = "block" /\ news_display p' = "block"
    /\ Forall2 card_for arts (news_nodes p').
Proof.
  destruct (process_news_ok nd n Hpn) as (tot & arts' & outs & Ha' & -> & Hf).
  rewrite Ha in Ha'. injection Ha' as <-.
  assert (Hne' : outs <> []) by (destruct Hf; [contradiction | discriminate]).
  unfold fetchWeatherData. pose proof H as H'. apply String.eqb_neq in H'. rewrite H'.
  rewrite (serve_data_weather_ok upstream _ wd w H Hw Hpw). unfold news_field. rewrite Hn, Hpn.
  unfold renderData. cbv beta zeta. cbn [body status].
  rewrite !get_json_rt by reflexivity.
  unfold ctry, cbind, clift, modify, cret, hideLoading.
  cbn -[displayWeatherData json_rt].
  match goal with |- context [displayWeatherData (json_rt w) ?q] =>
    destruct (display_report_ok wd w co la lo q Hpw Hco Hla Hlo)
      as (p1 & Hd & Hb & [He1 [He2 [Hl Hs]]] & Hnd & Hnn & _); rewrite Hd end.
  cbn -[json_rt displayNewsData].
  rewrite truthy_json_rt_obj, !get_json_rt by reflexivity.
  cbn -[json_rt displayNewsData].
  rewrite (json_rt_articles _ _ Hf). cbn -[displayNewsData gt0].
  rewrite gt0_length by (destruct outs; [contradiction | discriminate]).
  unfold displayNewsData, cbind, modify. cbn -[append_cards].
  destruct (append_cards_ok arts outs (set_news_nodes [] p1) Hf) as [nodes [Hac Hcards]].
  rewrite Hac. cbn. eexists; split; [reflexivity|]. cbn in *.
  rewrite He2, Hl, Hb. repeat split; assumption.
Qed.

Lemma client_articles_one_card_each_witness :
  exists p', fetchWeatherData upstream_news_six "London" page0 = (COk tt, p')
    /\ error_shown p' = false /\ loading_display p' = "none"
    /\ weather_display p' = "block" /\ news_display p' = "block"
    /\ Forall2 card_for (map article_n ["1"; "2"; "3"; "4"; "5"; "6"]) (news_nodes p').
Proof.
  refine (client_articles_one_card_each upstream_news_six "London" page0
           london_weather london_report
           (VObj [("lon", VNum (-0.1257)%Q); ("lat", VNum 51.5085%Q)])
           news_six _ 51.5085%Q (-0.1257)%Q _
           ltac:(discriminate) eq_refl eq_refl eq_refl eq_refl eq_refl eq_refl
           eq_refl eq_refl ltac:(discriminate)).
Defined.
